(** * Lightweight Data Warehouse: a shallow embedding in Rocq

    The development follows the Python sources of the repository:
    - [src/config/database_config.py]   the factory and the legacy path helpers;
    - [src/config/files_utils.py]       day-by-day discovery of raw files;
    - [src/extraction/parquet_loader.py] the Hive-partitioned Parquet writer
      and the imports it runs when it is loaded;
    - [src/config/database_interface.py] and [src/config/duckdb_adapter.py]
      the adapter and its context manager;
    - [src/transformation/duckdb_reader.py] the templated read queries;
    - [src/tests/test_connection.py]    the connection smoke test.

    The embedded engine (DuckDB) is external to the repository: [Module
    Engine] keeps concrete only what the claims depend on (connections,
    SET, the catalog count of [information_schema.tables], and the
    transaction statements) and takes its answer to every other statement
    as a parameter of the state.  Python text is held as its UTF-8 encoding;
    the [str] methods follow CPython's Unicode tables ([Module PyStr]). *)

From Stdlib Require Import Arith Lia List Bool String Ascii NArith ZArith.
From Stdlib Require Import Decimal DecimalNat DecimalString.
Import ListNotations.
Open Scope string_scope.
Open Scope nat_scope.
Set Warnings "-abstract-large-number".

(* ------------------------------------------------------------------ *)
(** ** Python values used by the code: integers rendered as text *)

Module PyFmt.

(** [str(n)] for a non-negative Python int. *)
Definition py_str (n : nat) : string :=
  NilEmpty.string_of_uint (Nat.to_uint n).

Fixpoint zeros (k : nat) : string :=
  match k with
  | O => ""
  | S k' => String "0" (zeros k')
  end.

(** [format(s, '0>w')]: left padding with zeros up to width [w]. *)
Definition zfill (w : nat) (s : string) : string :=
  zeros (w - String.length s) ++ s.

(** [f"{n:02d}"] for a non-negative int. *)
Definition fmt_02d (n : nat) : string := zfill 2 (py_str n).

Definition digit (k : nat) : ascii := ascii_of_nat (48 + k).

(** [strftime('%m')] / [strftime('%d')]: two decimal digits. *)
Definition strftime_2 (n : nat) : string :=
  String (digit (n / 10 mod 10)) (String (digit (n mod 10)) "").

(** [strftime('%Y')].  CPython hands [%Y] to the C library's [strftime],
    and the text depends on the platform: [pads_Y] tells whether the year
    comes out zero-padded to four digits.  glibc-backed CPython before
    3.12.5 does not pad ([pads_Y = false]): the year 5 is ["5"]. *)
Definition strftime_Y (pads_Y : bool) (y : nat) : string :=
  if pads_Y then zfill 4 (py_str y) else py_str y.

(** Reading a string of decimal digits back as a number
    ([None] when a character is not a digit). *)
Fixpoint digits_value_acc (s : string) (acc : nat) : option nat :=
  match s with
  | EmptyString => Some acc
  | String c s' =>
      let k := nat_of_ascii c in
      if (48 <=? k) && (k <=? 57) then digits_value_acc s' (acc * 10 + (k - 48))
      else None
  end.

Definition digits_value (s : string) : option nat := digits_value_acc s 0.

End PyFmt.

(* ------------------------------------------------------------------ *)
(** ** Dates ([datetime] at midnight) *)

Module Date.

Record datetime := mkdate { year : nat; month : nat; day : nat }.

Definition is_leap (y : nat) : bool :=
  (y mod 4 =? 0) && (negb (y mod 100 =? 0) || (y mod 400 =? 0)).

Definition days_in_month (y m : nat) : nat :=
  match m with
  | 1 | 3 | 5 | 7 | 8 | 10 | 12 => 31
  | 4 | 6 | 9 | 11 => 30
  | 2 => if is_leap y then 29 else 28
  | _ => 0
  end.

(** [MINYEAR <= year <= MAXYEAR], [1 <= month <= 12],
    [1 <= day <= days_in_month]: what the [datetime] constructor accepts. *)
Definition valid (d : datetime) : bool :=
  (1 <=? year d) && (year d <=? 9999) && (1 <=? month d) && (month d <=? 12)
  && (1 <=? day d) && (day d <=? days_in_month (year d) (month d)).

(** [d + timedelta(days=1)]; [None] is Python's [OverflowError]
    past [9999-12-31]. *)
Definition next_day (d : datetime) : option datetime :=
  if day d <? days_in_month (year d) (month d)
  then Some (mkdate (year d) (month d) (S (day d)))
  else if month d <? 12 then Some (mkdate (year d) (S (month d)) 1)
  else if year d <? 9999 then Some (mkdate (S (year d)) 1 1)
  else None.

(** [a <= b] on [datetime]: lexicographic on (year, month, day). *)
Definition le (a b : datetime) : bool :=
  (year a <? year b)
  || ((year a =? year b) && ((month a <? month b)
                             || ((month a =? month b) && (day a <=? day b)))).

End Date.
(* ------------------------------------------------------------------ *)
(** ** Python exceptions, tabular data, paths and the file system *)

Module Py.

Inductive exn :=
| ValueError
| FileNotFoundError
| TypeError
| OverflowError
| ModuleNotFoundError     (* an [import] of a module that does not exist *)
| TransactionException   (* DuckDB: BEGIN/COMMIT/ROLLBACK refused *)
| AttributeError        (* method call on [None] *)
| EngineError.           (* any other error raised by the engine *)

Inductive result (A : Type) :=
| Ok (a : A)
| Exc (e : exn).
Arguments Ok {A} a.
Arguments Exc {A} e.

(** A cell of a DataFrame; the code never inspects payload columns. *)
Inductive cell := CNum (n : nat) | CText (s : string) | CNull.

Definition row := list (string * cell).
Definition DataFrame := list row.

(** [pathlib.Path] by its [parts]; an absolute path starts with ["/"]. *)
Definition Path := list string.

Definition path_eqb (p q : Path) : bool :=
  (List.length p =? List.length q) && forallb (fun '(a, b) => String.eqb a b) (combine p q).

Fixpoint is_prefix (p q : Path) : bool :=
  match p, q with
  | [], _ => true
  | a :: p', b :: q' => String.eqb a b && is_prefix p' q'
  | _ :: _, [] => false
  end.

(** [p.relative_to(base)]: [ValueError] unless [base] is a prefix of [p]
    (in particular when one is relative and the other absolute). *)
Definition relative_to (p base : Path) : result Path :=
  if is_prefix base p then Ok (skipn (List.length base) p) else Exc ValueError.

(** The files on disk, with their contents; directories are implicit. *)
Definition fsys := list (Path * DataFrame).

Definition exists_ (fs : fsys) (p : Path) : bool :=
  existsb (fun '(q, _) => path_eqb q p) fs.

(** Writing a file truncates any previous file at the same path. *)
Definition write_file (fs : fsys) (p : Path) (df : DataFrame) : fsys :=
  (filter (fun '(q, _) => negb (path_eqb q p)) fs ++ [(p, df)])%list.

Definition read_file (fs : fsys) (p : Path) : option DataFrame :=
  match find (fun '(q, _) => path_eqb q p) fs with
  | Some (_, df) => Some df
  | None => None
  end.

End Py.

Import Py PyFmt.

(* ------------------------------------------------------------------ *)
(** ** [config/database_config.py] and [config/files_utils.py] *)

Module Config.

(** [RAW_DATA_PATH = Path("data/raw/case_history")] *)
Definition RAW_DATA_PATH : Path := ["data"; "raw"; "case_history"].

Definition DB_PATH : string := "dwh.duckdb".
Definition DEFAULT_MEMORY_LIMIT : string := "4GB".
Definition DEFAULT_THREADS : nat := 4.

(** [date.strftime('%Y%m%d')] on a platform whose [%Y] pads or not. *)
Definition strftime_Ymd (pads_Y : bool) (d : Date.datetime) : string :=
  strftime_Y pads_Y (Date.year d) ++ strftime_2 (Date.month d) ++ strftime_2 (Date.day d).

(** [RAW_DATA_PATH / str(date.year) / f"{date.month:02d}" / f"{date.day:02d}"] *)
Definition get_raw_data_path (d : Date.datetime) : Path :=
  (RAW_DATA_PATH ++ [py_str (Date.year d); fmt_02d (Date.month d); fmt_02d (Date.day d)])%list.

Definition get_raw_file_path (pads_Y : bool) (d : Date.datetime) : Path :=
  let folder := get_raw_data_path d in
  let filename := ("casos_rrhh_" ++ strftime_Ymd pads_Y d ++ ".parquet")%string in
  (folder ++ [filename])%list.

(** Python's [date.toordinal()], used only to bound the [while] loop below:
    each iteration advances [current] by exactly one ordinal day. *)
Definition days_before_year (y : nat) : nat :=
  let y' := y - 1 in y' * 365 + y' / 4 - y' / 100 + y' / 400.

Fixpoint days_before_month (y m : nat) : nat :=
  match m with
  | O | 1 => 0
  | S m' => days_before_month y m' + Date.days_in_month y m'
  end.

Definition toordinal (d : Date.datetime) : nat :=
  days_before_year (Date.year d) + days_before_month (Date.year d) (Date.month d)
  + Date.day d.

(** The loop [while current <= end_date: ...; current += timedelta(days=1)]. *)
Fixpoint range_loop (pads_Y : bool) (fuel : nat) (fs : fsys) (current end_date : Date.datetime)
    (files : list Path) : result (list Path) :=
  match fuel with
  | O => Ok files
  | S fuel' =>
      if Date.le current end_date then
        let file_path := get_raw_file_path pads_Y current in
        let files' := if exists_ fs file_path then (files ++ [file_path])%list else files in
        match Date.next_day current with
        | Some next => range_loop pads_Y fuel' fs next end_date files'
        | None => Exc OverflowError
        end
      else Ok files
  end.

Definition list_raw_files_in_range (pads_Y : bool) (fs : fsys)
    (start_date end_date : Date.datetime) : result (list Path) :=
  range_loop pads_Y (S (toordinal end_date - toordinal start_date)) fs start_date end_date [].

End Config.

(* ------------------------------------------------------------------ *)
(** ** [extraction/parquet_loader.py] *)

Module Loader.

(** The modules an [import] can find: those of the repository, below
    [src/] (which the module puts on [sys.path], line 9), and the standard
    and third-party ones the code uses. *)
Definition repository_modules : list string :=
  ["config"; "config.database_config"; "config.database_interface";
   "config.duckdb_adapter"; "config.files_utils";
   "extraction"; "extraction.parquet_loader";
   "transformation"; "transformation.duckdb_reader"].

Definition installed_modules : list string :=
  ["abc"; "argparse"; "datetime"; "duckdb"; "os"; "pandas"; "pathlib"; "sys"; "typing"].

Definition import_module (name : string) : result unit :=
  if existsb (String.eqb name) (repository_modules ++ installed_modules) then Ok tt
  else Exc ModuleNotFoundError.

Fixpoint import_all (names : list string) : result unit :=
  match names with
  | [] => Ok tt
  | n :: names' =>
      match import_module n with
      | Ok _ => import_all names'
      | Exc e => Exc e
      end
  end.

(** The imports at the top of the module, in order (lines 7-15); the last
    one names [config.file_utils], while the repository's module is
    [config/files_utils.py]. *)
Definition parquet_loader_imports : list string :=
  ["sys"; "pathlib"; "pandas"; "datetime"; "typing";
   "config.database_config"; "config.file_utils"].

Record ParquetLoader := { base_path : Path }.

(** [from extraction.parquet_loader import ParquetLoader]: loading the
    module runs its imports, and the class (here its constructor
    [ParquetLoader(base_path)]) exists only when they all succeed. *)
Definition import_ParquetLoader : result (Path -> ParquetLoader) :=
  match import_all parquet_loader_imports with
  | Ok _ => Ok (fun base_path => {| base_path := base_path |})
  | Exc e => Exc e
  end.

(** The bodies of the methods, as they would run on a [ParquetLoader]. *)

(** [self.base_path / f"year={d.year}" / f"month={d.month:02d}" / f"day={d.day:02d}"] *)
Definition _get_hive_partition_path (self : ParquetLoader) (d : Date.datetime) : Path :=
  (base_path self ++
   [("year=" ++ py_str (Date.year d))%string;
    ("month=" ++ fmt_02d (Date.month d))%string;
    ("day=" ++ fmt_02d (Date.day d))%string])%list.

(** [f"case_history_{extraction_date.strftime('%Y%m%d')}.parquet"] *)
Definition output_filename (pads_Y : bool) (d : Date.datetime) : string :=
  "case_history_" ++ Config.strftime_Ymd pads_Y d ++ ".parquet".

(** [output_path = partition_path / filename] *)
Definition output_path (pads_Y : bool) (self : ParquetLoader) (d : Date.datetime) : Path :=
  (_get_hive_partition_path self d ++ [output_filename pads_Y d])%list.

(** [_save_to_parquet]: the file is written first; the report line then
    calls [output_path.relative_to(Path.cwd())], which raises when the
    output path does not lie under the working directory [cwd].
    [ensure_path_exists] only creates directories, implicit in [fsys]. *)
Definition _save_to_parquet (pads_Y : bool) (self : ParquetLoader) (cwd : Path) (fs : fsys)
    (df : DataFrame) (d : Date.datetime) : fsys * result Path :=
  let out := output_path pads_Y self d in
  let fs' := write_file fs out df in
  match relative_to out cwd with
  | Ok _ => (fs', Ok out)
  | Exc e => (fs', Exc e)
  end.

End Loader.

(* ------------------------------------------------------------------ *)
(** ** The embedded engine and the adapter's state

    DuckDB is external to the repository.  The model keeps one database
    file (its catalog of tables), the connections opened on it and the
    statements the adapter sends.  The f-string SQL templates of the code
    are kept as constructors of [stmt], one per template, with the
    interpolated values as arguments.  What the claims rely on is concrete:
    opening and closing connections, [SET], the count of
    [information_schema.tables] rows with a given [table_name], and
    BEGIN/COMMIT/ROLLBACK.  Caller SQL text ([SRaw], always a SELECT in this
    code) is answered by [raw_sql].  Every other statement (table DDL and
    DML, COPY, DESCRIBE, CHECKPOINT, [read_parquet]) is answered by
    [run_data]: the engine's name resolution, typing of Hive partition
    values and rules for these statements are its own and are not fixed
    here. *)

Module Engine.

(** A filter atom of the Reader's WHERE clauses: [col = v], [col >= v],
    [col <= v]. *)
Inductive atom :=
| AEq (col : string) (v : nat)
| AGe (col : string) (v : nat)
| ALe (col : string) (v : nat).

Inductive stmt :=
| SSet (key value : string)                   (* SET key=value *)
| SCountTablesNamed (name : string)           (* information_schema count, ? = name *)
| SDropTableIfExists (name : string)
| SCreateTableAsDf (name : string) (df : DataFrame)
| SInsertIntoFromDf (name : string) (df : DataFrame)
| SCreateTableAsParquet (name : string) (path : Path)
| SInsertIntoFromParquet (name : string) (path : Path)
| SCountRows (name : string)                  (* SELECT COUNT( * ) FROM name *)
| SCopyTo (query : string) (path : Path)      (* COPY (query) TO 'path' *)
| SDescribe (name : string)
| SCheckpoint
| SBegin
| SCommit
| SRollback
| SReadParquet (base : Path) (where_ : list atom)     (* read_parquet('base/**/*.parquet', hive_partitioning = true) [WHERE a AND b ...] *)
| SReadParquetWhere (base : Path) (filter : string)  (* the same read, WHERE <caller text> *)
| SRaw (sql : string).

(** One engine connection: open or closed, its transaction state (with the
    catalog saved at BEGIN) and the statements it has run. *)
Record econn := mkconn {
  c_open : bool;
  c_txn : option (list (string * DataFrame));
  c_log : list stmt }.

Record world := mkworld {
  a_conn : option nat;                    (* DuckDBAdapter.conn: index in [conns] *)
  conns : list econn;                     (* every connection the adapter opened *)
  tables : list (string * DataFrame);     (* the catalog: each table under its stored name *)
  files : fsys;                           (* the file system *)
  can_open : bool;                        (* duckdb.connect succeeds *)
  set_ok : string -> string -> bool;      (* the engine accepts SET key=value *)
  raw_sql : string -> option DataFrame;   (* the engine's answer to caller SQL *)
  run_data : stmt -> list (string * DataFrame) -> fsys -> option (list (string * DataFrame))
             -> option (list (string * DataFrame) * fsys * DataFrame) }.
  (* [run_data st ts fs tx]: the engine's answer to any other statement [st],
     from the catalog [ts], the files [fs] and the connection's transaction
     [tx]: [None] when it raises, else the catalog and files after it and
     the rows it yields. *)

Definition set_a_conn (w : world) (c : option nat) : world :=
  mkworld c (conns w) (tables w) (files w) (can_open w) (set_ok w) (raw_sql w) (run_data w).
Definition set_conns (w : world) (cs : list econn) : world :=
  mkworld (a_conn w) cs (tables w) (files w) (can_open w) (set_ok w) (raw_sql w) (run_data w).
Definition set_tables (w : world) (ts : list (string * DataFrame)) : world :=
  mkworld (a_conn w) (conns w) ts (files w) (can_open w) (set_ok w) (raw_sql w) (run_data w).
Definition set_files (w : world) (fs : fsys) : world :=
  mkworld (a_conn w) (conns w) (tables w) fs (can_open w) (set_ok w) (raw_sql w) (run_data w).

(** A Python computation: state passing, and an exception that leaves the
    state as it was when raised. *)
Definition M (A : Type) := world -> world * result A.

Definition ret {A} (a : A) : M A := fun w => (w, Ok a).
Definition raise {A} (e : exn) : M A := fun w => (w, Exc e).
Definition bind {A B} (m : M A) (k : A -> M B) : M B :=
  fun w => match m w with
           | (w', Ok a) => k a w'
           | (w', Exc e) => (w', Exc e)
           end.
(** [try: m except e: ...]: the outcome of [m] as a value. *)
Definition catch {A} (m : M A) : M (result A) :=
  fun w => let (w', r) := m w in (w', Ok r).
Definition get : M world := fun w => (w, Ok w).
Definition modify (f : world -> world) : M unit := fun w => (f w, Ok tt).

Notation "x <- m ;; k" := (bind m (fun x => k))
  (at level 61, m at next level, right associativity).
Notation "m ;;; k" := (bind m (fun _ => k)) (at level 61, right associativity).

Fixpoint update_nth {A} (n : nat) (f : A -> A) (l : list A) : list A :=
  match l, n with
  | [], _ => []
  | x :: l', O => f x :: l'
  | x :: l', S n' => x :: update_nth n' f l'
  end.

(** [table_name = ?] in [information_schema.tables]: a plain comparison of
    the stored name with the text given. *)
Definition table_names_eq (n : string) (e : string * DataFrame) : bool :=
  String.eqb (fst e) n.

(** The table stored under exactly the name [n]. *)
Definition lookup_table (ts : list (string * DataFrame)) (n : string) : option DataFrame :=
  option_map snd (find (table_names_eq n) ts).

Definition count_row (n : nat) : row := [("count_star()", CNum n)].

(** What one statement does to the catalog, the files and the connection's
    transaction, and the rows it yields. *)
Definition run_stmt (w : world) (c : econn) (st : stmt)
    : result (list (string * DataFrame) * fsys * option (list (string * DataFrame)) * DataFrame) :=
  let ts := tables w in
  let fs := files w in
  let tx := c_txn c in
  match st with
  | SSet k v => if set_ok w k v then Ok (ts, fs, tx, []) else Exc EngineError
  | SCountTablesNamed n => Ok (ts, fs, tx, [count_row (List.length (filter (table_names_eq n) ts))])
  | SBegin =>
      match tx with
      | Some _ => Exc TransactionException
      | None => Ok (ts, fs, Some ts, [])
      end
  | SCommit =>
      match tx with
      | Some _ => Ok (ts, fs, None, [])
      | None => Exc TransactionException      (* cannot commit - no transaction is active *)
      end
  | SRollback =>
      match tx with
      | Some saved => Ok (saved, fs, None, [])
      | None => Exc TransactionException      (* cannot rollback - no transaction is active *)
      end
  | SRaw q =>
      match raw_sql w q with
      | Some df => Ok (ts, fs, tx, df)
      | None => Exc EngineError
      end
  | _ =>
      match run_data w st ts fs tx with
      | Some (ts', fs', df) => Ok (ts', fs', tx, df)
      | None => Exc EngineError
      end
  end.

(** [conn.execute(stmt)] on connection [h]; a closed connection raises. *)
Definition exec (h : nat) (st : stmt) : M DataFrame :=
  fun w =>
    match nth_error (conns w) h with
    | Some c =>
        if c_open c then
          match run_stmt w c st with
          | Ok (ts, fs, tx, df) =>
              (set_conns (set_files (set_tables w ts) fs)
                 (update_nth h (fun c0 => mkconn true tx (c_log c0 ++ [st])%list) (conns w)),
               Ok df)
          | Exc e => (w, Exc e)
          end
        else (w, Exc EngineError)
    | None => (w, Exc EngineError)
    end.

(** [duckdb.connect(path)]: a new open connection. *)
Definition open_conn : M nat :=
  fun w =>
    if can_open w then
      (set_conns w (conns w ++ [mkconn true None []])%list, Ok (List.length (conns w)))
    else (w, Exc EngineError).

(** [conn.close()]: an open transaction is rolled back. *)
Definition close_conn (h : nat) : M unit :=
  fun w =>
    match nth_error (conns w) h with
    | Some c =>
        let ts := match c_txn c with Some saved => saved | None => tables w end in
        (set_conns (set_tables w ts)
           (update_nth h (fun c0 => mkconn false None (c_log c0)) (conns w)), Ok tt)
    | None => (w, Ok tt)
    end.

End Engine.

(* ------------------------------------------------------------------ *)
(** ** [config/duckdb_adapter.py] and [config/database_interface.py] *)

Module Adapter.
Import Engine.

(** A Python value passed through [**kwargs]. *)
Inductive pyval := PStr (s : string) | PInt (n : nat).

(** [str(v)] *)
Definition pyval_str (v : pyval) : string :=
  match v with PStr s => s | PInt n => py_str n end.

(** [Path(db_path)]: the adapter keeps the text it was given. *)
Record pypath := PyPath { path_text : string }.

Record DuckDBAdapter := mkadapter {
  db_path : pypath;
  memory_limit : pyval;
  threads : pyval }.

(** [DuckDBAdapter.__init__]: [self.conn = None] is [a_conn] of the world. *)
Definition DuckDBAdapter_init (db_path : string) (memory_limit : pyval) (threads : pyval)
    : DuckDBAdapter :=
  mkadapter (PyPath db_path) memory_limit threads.

(** [connect]: opens and configures a connection only when none is held. *)
Definition connect (self : DuckDBAdapter) : M nat :=
  w <- get ;;
  match a_conn w with
  | Some h => ret h
  | None =>
      h <- open_conn ;;
      modify (fun w => set_a_conn w (Some h)) ;;;
      exec h (SSet "memory_limit" ("'" ++ pyval_str (memory_limit self) ++ "'")) ;;;
      exec h (SSet "threads" (pyval_str (threads self))) ;;;
      ret h
  end.

(** [close] *)
Definition close (self : DuckDBAdapter) : M unit :=
  w <- get ;;
  match a_conn w with
  | Some h => close_conn h ;;; modify (fun w => set_a_conn w None)
  | None => ret tt
  end.

(** [if self.conn is None: self.connect()] *)
Definition ensure_connected (self : DuckDBAdapter) : M unit :=
  w <- get ;;
  match a_conn w with
  | None => connect self ;;; ret tt
  | Some _ => ret tt
  end.

(** [self.conn.execute(...)] on whatever [self.conn] holds ([None] has no
    [execute]). *)
Definition conn_execute (st : stmt) : M DataFrame :=
  w <- get ;;
  match a_conn w with
  | Some h => exec h st
  | None => raise AttributeError
  end.

(** [execute(query, params)]: the parameters are part of [st]. *)
Definition execute (self : DuckDBAdapter) (st : stmt) : M DataFrame :=
  ensure_connected self ;;; conn_execute st.

Fixpoint execute_each (sts : list stmt) : M unit :=
  match sts with
  | [] => ret tt
  | st :: sts' => conn_execute st ;;; execute_each sts'
  end.

(** [execute_many(query, params_list)]: one statement per parameter list. *)
Definition execute_many (self : DuckDBAdapter) (sts : list stmt) : M unit :=
  ensure_connected self ;;; execute_each sts.

Definition fetch_one (self : DuckDBAdapter) (st : stmt) : M (option row) :=
  df <- execute self st ;; ret (hd_error df).
Definition fetch_all (self : DuckDBAdapter) (st : stmt) : M DataFrame := execute self st.
Definition fetch_df (self : DuckDBAdapter) (st : stmt) : M DataFrame := execute self st.

(** [result[0] > 0 if result else False] *)
Definition table_exists (self : DuckDBAdapter) (table_name : string) : M bool :=
  result <- fetch_one self (SCountTablesNamed table_name) ;;
  match result with
  | Some ((_, CNum n) :: _) => ret (0 <? n)
  | Some _ => raise TypeError
  | None => ret false
  end.

Definition create_table_from_df (self : DuckDBAdapter) (df : DataFrame)
    (table_name : string) (if_exists : string) : M unit :=
  ensure_connected self ;;;
  exists_ <- table_exists self table_name ;;
  (if exists_ && String.eqb if_exists "fail" then raise ValueError
   else if exists_ && String.eqb if_exists "replace"
   then execute self (SDropTableIfExists table_name) ;;; ret tt
   else ret tt) ;;;
  (if String.eqb if_exists "append" && exists_
   then conn_execute (SInsertIntoFromDf table_name df)
   else conn_execute (SCreateTableAsDf table_name df)) ;;;
  ret tt.

Definition create_table_from_parquet (self : DuckDBAdapter) (parquet_path : Path)
    (table_name : string) (if_exists : string) : M unit :=
  w <- get ;;
  if negb (exists_ (files w) parquet_path) then raise FileNotFoundError else
  exists_ <- table_exists self table_name ;;
  (if exists_ && String.eqb if_exists "fail" then raise ValueError
   else if exists_ && String.eqb if_exists "replace"
   then execute self (SDropTableIfExists table_name) ;;; ret tt
   else ret tt) ;;;
  (if String.eqb if_exists "append" && exists_
   then execute self (SInsertIntoFromParquet table_name parquet_path)
   else execute self (SCreateTableAsParquet table_name parquet_path)) ;;;
  count <- fetch_one self (SCountRows table_name) ;;
  match count with
  | Some (_ :: _) => ret tt
  | _ => raise TypeError          (* subscripting None or an empty row *)
  end.

(** [export_to_parquet]: the parent directory is implicit in [fsys]. *)
Definition export_to_parquet (self : DuckDBAdapter) (query : string) (output_path : Path)
    : M unit :=
  execute self (SCopyTo query output_path) ;;; ret tt.

Definition get_table_info (self : DuckDBAdapter) (table_name : string) : M DataFrame :=
  fetch_df self (SDescribe table_name).

(** [commit]: DuckDB's Python [commit()] does nothing in auto-commit mode. *)
Definition commit (self : DuckDBAdapter) : M unit :=
  w <- get ;;
  match a_conn w with
  | Some h =>
      match nth_error (conns w) h with
      | Some c => match c_txn c with
                  | Some _ => exec h SCommit ;;; ret tt
                  | None => ret tt
                  end
      | None => ret tt
      end
  | None => ret tt
  end.

(** [rollback]: DuckDB's Python [rollback()] always sends ROLLBACK. *)
Definition rollback (self : DuckDBAdapter) : M unit :=
  w <- get ;;
  match a_conn w with
  | Some h => exec h SRollback ;;; ret tt
  | None => ret tt
  end.

Definition vacuum (self : DuckDBAdapter) : M unit :=
  ensure_connected self ;;; conn_execute SCheckpoint ;;; ret tt.

(** The objects a [with] statement can bind. *)
Inductive pyobj := OAdapter (a : DuckDBAdapter) | OConn (h : nat).

(** [__enter__]: [return self.connect()]. *)
Definition __enter__ (self : DuckDBAdapter) : M pyobj :=
  h <- connect self ;; ret (OConn h).

(** [__exit__]: rollback on an exception, then close. *)
Definition __exit__ (self : DuckDBAdapter) (exc : option exn) : M unit :=
  (match exc with Some _ => rollback self | None => ret tt end) ;;;
  close self.

(** [with self as x: body(x)]: an exception of the body is re-raised once
    [__exit__] returns; an exception of [__exit__] replaces it. *)
Definition with_ {A} (self : DuckDBAdapter) (body : pyobj -> M A) : M A :=
  x <- __enter__ self ;;
  r <- catch (body x) ;;
  match r with
  | Ok a => __exit__ self None ;;; ret a
  | Exc e => __exit__ self (Some e) ;;; raise e
  end.

(** [obj.fetch_df(query)]: on the adapter, its own [fetch_df]; on a DuckDB
    connection, [fetch_df] takes no positional argument. *)
Definition call_fetch_df (o : pyobj) (st : stmt) : M DataFrame :=
  match o with
  | OAdapter a => fetch_df a st
  | OConn _ => raise TypeError
  end.

(** The adapter operations, for the connection invariant. *)
Inductive op :=
| OpConnect | OpClose | OpExecute (st : stmt) | OpExecuteMany (sts : list stmt)
| OpFetchOne (st : stmt) | OpFetchAll (st : stmt) | OpFetchDf (st : stmt)
| OpTableExists (n : string) | OpCreateFromDf (df : DataFrame) (n mode : string)
| OpCreateFromParquet (p : Path) (n mode : string) | OpExport (q : string) (p : Path)
| OpTableInfo (n : string) | OpCommit | OpRollback | OpVacuum
| OpEnter | OpExit (exc : option exn).

Definition run_op (self : DuckDBAdapter) (o : op) : M unit :=
  match o with
  | OpConnect => connect self ;;; ret tt
  | OpClose => close self
  | OpExecute st => execute self st ;;; ret tt
  | OpExecuteMany sts => execute_many self sts
  | OpFetchOne st => fetch_one self st ;;; ret tt
  | OpFetchAll st => fetch_all self st ;;; ret tt
  | OpFetchDf st => fetch_df self st ;;; ret tt
  | OpTableExists n => table_exists self n ;;; ret tt
  | OpCreateFromDf df n mode => create_table_from_df self df n mode
  | OpCreateFromParquet p n mode => create_table_from_parquet self p n mode
  | OpExport q p => export_to_parquet self q p
  | OpTableInfo n => get_table_info self n ;;; ret tt
  | OpCommit => commit self
  | OpRollback => rollback self
  | OpVacuum => vacuum self
  | OpEnter => __enter__ self ;;; ret tt
  | OpExit exc => __exit__ self exc
  end.

(** A client issuing adapter calls one after the other, going on after an
    exception it caught. *)
Fixpoint run_ops (self : DuckDBAdapter) (ops : list op) : M unit :=
  match ops with
  | [] => ret tt
  | o :: ops' => catch (run_op self o) ;;; run_ops self ops'
  end.

End Adapter.
(* ------------------------------------------------------------------ *)
(** ** Python [str] methods

    A Python [str] is a sequence of code points; the development holds it
    as its UTF-8 encoding.  [lower], [upper], [casefold] and [strip] decode
    the text, apply CPython's per-code-point mappings (its Unicode database,
    version 14.0.0 as shipped with CPython 3.11) and encode the result.
    The tables below list, for each mapping, the code points it sends to
    one other code point (as runs [lo..hi] by [step], shifted by [delta])
    and those it sends to several; every other code point maps to itself.
    A byte string that is not valid UTF-8 is the encoding of no Python
    text; the methods leave it as it is. *)

Module PyStr.
Local Open Scope N_scope.

Definition bytes (s : string) : list N := map N_of_ascii (list_ascii_of_string s).

(** A continuation byte [10xxxxxx]. *)
Definition cont (b : N) : bool := (128 <=? b) && (b <? 192).

(** Strict UTF-8 decoding: no overlong forms, no surrogates, nothing
    above U+10FFFF. *)
Fixpoint utf8_decode (l : list N) : option (list N) :=
  match l with
  | [] => Some []
  | b0 :: r =>
      if b0 <? 128 then option_map (cons b0) (utf8_decode r)
      else if (194 <=? b0) && (b0 <? 224) then
        match r with
        | b1 :: r' =>
            if cont b1 then option_map (cons ((b0 - 192) * 64 + (b1 - 128))) (utf8_decode r')
            else None
        | [] => None
        end
      else if (224 <=? b0) && (b0 <? 240) then
        match r with
        | b1 :: b2 :: r' =>
            let c := (b0 - 224) * 4096 + (b1 - 128) * 64 + (b2 - 128) in
            if cont b1 && cont b2 && (2048 <=? c) && negb ((55296 <=? c) && (c <=? 57343))
            then option_map (cons c) (utf8_decode r')
            else None
        | _ => None
        end
      else if (240 <=? b0) && (b0 <? 245) then
        match r with
        | b1 :: b2 :: b3 :: r' =>
            let c := (b0 - 240) * 262144 + (b1 - 128) * 4096 + (b2 - 128) * 64 + (b3 - 128) in
            if cont b1 && cont b2 && cont b3 && (65536 <=? c) && (c <=? 1114111)
            then option_map (cons c) (utf8_decode r')
            else None
        | _ => None
        end
      else None
  end.

Definition decode (s : string) : option (list N) := utf8_decode (bytes s).

(** The UTF-8 bytes of one code point. *)
Definition enc1 (c : N) : list N :=
  if c <? 128 then [c]
  else if c <? 2048 then [192 + c / 64; 128 + c mod 64]
  else if c <? 65536 then [224 + c / 4096; 128 + (c / 64) mod 64; 128 + c mod 64]
  else [240 + (c / 262144) mod 8; 128 + (c / 4096) mod 64; 128 + (c / 64) mod 64;
        128 + c mod 64].

Definition encode (cps : list N) : string :=
  string_of_list_ascii (map ascii_of_N (flat_map enc1 cps)).

(** A run of code points [lo], [lo + step], ..., up to [hi], each mapped
    to itself plus [delta]. *)
Record run := mkrun { r_lo : N; r_hi : N; r_step : N; r_delta : Z }.

Definition in_run (r : run) (c : N) : bool :=
  (r_lo r <=? c) && (c <=? r_hi r) && ((c - r_lo r) mod r_step r =? 0).

Fixpoint map_single (rs : list run) (c : N) : N :=
  match rs with
  | [] => c
  | r :: rs' => if in_run r c then Z.to_N (Z.of_N c + r_delta r) else map_single rs' c
  end.

Fixpoint assoc (m : list (N * list N)) (c : N) : option (list N) :=
  match m with
  | [] => None
  | (k, v) :: m' => if k =? c then Some v else assoc m' c
  end.

(** A full case mapping ([_PyUnicode_ToLowerFull] and the like): the
    several code points of the special cases, else the simple mapping. *)
Definition case_map (single : list run) (multi : list (N * list N)) (c : N) : list N :=
  match assoc multi c with
  | Some out => out
  | None => [map_single single c]
  end.

Fixpoint in_ranges (rs : list (N * N)) (c : N) : bool :=
  match rs with
  | [] => false
  | (lo, hi) :: rs' => ((lo <=? c) && (c <=? hi)) || in_ranges rs' c
  end.

(** [str.lower]: the code points mapped to one other code point. *)
Definition lower_single : list run := [
  mkrun 65 90 1 32; mkrun 192 214 1 32; mkrun 216 222 1 32;
  mkrun 256 302 2 1; mkrun 306 310 2 1; mkrun 313 327 2 1;
  mkrun 330 374 2 1; mkrun 376 376 1 (-121); mkrun 377 381 2 1;
  mkrun 385 385 1 210; mkrun 386 388 2 1; mkrun 390 390 1 206;
  mkrun 391 391 1 1; mkrun 393 394 1 205; mkrun 395 395 1 1;
  mkrun 398 398 1 79; mkrun 399 399 1 202; mkrun 400 400 1 203;
  mkrun 401 401 1 1; mkrun 403 403 1 205; mkrun 404 404 1 207;
  mkrun 406 406 1 211; mkrun 407 407 1 209; mkrun 408 408 1 1;
  mkrun 412 412 1 211; mkrun 413 413 1 213; mkrun 415 415 1 214;
  mkrun 416 420 2 1; mkrun 422 422 1 218; mkrun 423 423 1 1;
  mkrun 425 425 1 218; mkrun 428 428 1 1; mkrun 430 430 1 218;
  mkrun 431 431 1 1; mkrun 433 434 1 217; mkrun 435 437 2 1;
  mkrun 439 439 1 219; mkrun 440 440 1 1; mkrun 444 444 1 1;
  mkrun 452 452 1 2; mkrun 453 453 1 1; mkrun 455 455 1 2;
  mkrun 456 456 1 1; mkrun 458 458 1 2; mkrun 459 475 2 1;
  mkrun 478 494 2 1; mkrun 497 497 1 2; mkrun 498 500 2 1;
  mkrun 502 502 1 (-97); mkrun 503 503 1 (-56); mkrun 504 542 2 1;
  mkrun 544 544 1 (-130); mkrun 546 562 2 1; mkrun 570 570 1 10795;
  mkrun 571 571 1 1; mkrun 573 573 1 (-163); mkrun 574 574 1 10792;
  mkrun 577 577 1 1; mkrun 579 579 1 (-195); mkrun 580 580 1 69;
  mkrun 581 581 1 71; mkrun 582 590 2 1; mkrun 880 882 2 1;
  mkrun 886 886 1 1; mkrun 895 895 1 116; mkrun 902 902 1 38;
  mkrun 904 906 1 37; mkrun 908 908 1 64; mkrun 910 911 1 63;
  mkrun 913 929 1 32; mkrun 931 939 1 32; mkrun 975 975 1 8;
  mkrun 984 1006 2 1; mkrun 1012 1012 1 (-60); mkrun 1015 1015 1 1;
  mkrun 1017 1017 1 (-7); mkrun 1018 1018 1 1; mkrun 1021 1023 1 (-130);
  mkrun 1024 1039 1 80; mkrun 1040 1071 1 32; mkrun 1120 1152 2 1;
  mkrun 1162 1214 2 1; mkrun 1216 1216 1 15; mkrun 1217 1229 2 1;
  mkrun 1232 1326 2 1; mkrun 1329 1366 1 48; mkrun 4256 4293 1 7264;
  mkrun 4295 4295 1 7264; mkrun 4301 4301 1 7264; mkrun 5024 5103 1 38864;
  mkrun 5104 5109 1 8; mkrun 7312 7354 1 (-3008); mkrun 7357 7359 1 (-3008);
  mkrun 7680 7828 2 1; mkrun 7838 7838 1 (-7615); mkrun 7840 7934 2 1;
  mkrun 7944 7951 1 (-8); mkrun 7960 7965 1 (-8); mkrun 7976 7983 1 (-8);
  mkrun 7992 7999 1 (-8); mkrun 8008 8013 1 (-8); mkrun 8025 8031 2 (-8);
  mkrun 8040 8047 1 (-8); mkrun 8072 8079 1 (-8); mkrun 8088 8095 1 (-8);
  mkrun 8104 8111 1 (-8); mkrun 8120 8121 1 (-8); mkrun 8122 8123 1 (-74);
  mkrun 8124 8124 1 (-9); mkrun 8136 8139 1 (-86); mkrun 8140 8140 1 (-9);
  mkrun 8152 8153 1 (-8); mkrun 8154 8155 1 (-100); mkrun 8168 8169 1 (-8);
  mkrun 8170 8171 1 (-112); mkrun 8172 8172 1 (-7); mkrun 8184 8185 1 (-128);
  mkrun 8186 8187 1 (-126); mkrun 8188 8188 1 (-9); mkrun 8486 8486 1 (-7517);
  mkrun 8490 8490 1 (-8383); mkrun 8491 8491 1 (-8262); mkrun 8498 8498 1 28;
  mkrun 8544 8559 1 16; mkrun 8579 8579 1 1; mkrun 9398 9423 1 26;
  mkrun 11264 11311 1 48; mkrun 11360 11360 1 1; mkrun 11362 11362 1 (-10743);
  mkrun 11363 11363 1 (-3814); mkrun 11364 11364 1 (-10727); mkrun 11367 11371 2 1;
  mkrun 11373 11373 1 (-10780); mkrun 11374 11374 1 (-10749); mkrun 11375 11375 1 (-10783);
  mkrun 11376 11376 1 (-10782); mkrun 11378 11378 1 1; mkrun 11381 11381 1 1;
  mkrun 11390 11391 1 (-10815); mkrun 11392 11490 2 1; mkrun 11499 11501 2 1;
  mkrun 11506 11506 1 1; mkrun 42560 42604 2 1; mkrun 42624 42650 2 1;
  mkrun 42786 42798 2 1; mkrun 42802 42862 2 1; mkrun 42873 42875 2 1;
  mkrun 42877 42877 1 (-35332); mkrun 42878 42886 2 1; mkrun 42891 42891 1 1;
  mkrun 42893 42893 1 (-42280); mkrun 42896 42898 2 1; mkrun 42902 42920 2 1;
  mkrun 42922 42922 1 (-42308); mkrun 42923 42923 1 (-42319); mkrun 42924 42924 1 (-42315);
  mkrun 42925 42925 1 (-42305); mkrun 42926 42926 1 (-42308); mkrun 42928 42928 1 (-42258);
  mkrun 42929 42929 1 (-42282); mkrun 42930 42930 1 (-42261); mkrun 42931 42931 1 928;
  mkrun 42932 42946 2 1; mkrun 42948 42948 1 (-48); mkrun 42949 42949 1 (-42307);
  mkrun 42950 42950 1 (-35384); mkrun 42951 42953 2 1; mkrun 42960 42960 1 1;
  mkrun 42966 42968 2 1; mkrun 42997 42997 1 1; mkrun 65313 65338 1 32;
  mkrun 66560 66599 1 40; mkrun 66736 66771 1 40; mkrun 66928 66964 2 39;
  mkrun 66929 66937 2 39; mkrun 66941 66953 2 39; mkrun 66957 66961 2 39;
  mkrun 66965 66965 1 39; mkrun 68736 68786 1 64; mkrun 71840 71871 1 32;
  mkrun 93760 93791 1 32; mkrun 125184 125217 1 34].

(** [str.lower]: the code points mapped to several code points. *)
Definition lower_multi : list (N * list N) := [
  (304, [105; 775])].

(** [str.upper]: the code points mapped to one other code point. *)
Definition upper_single : list run := [
  mkrun 97 122 1 (-32); mkrun 181 181 1 743; mkrun 224 246 1 (-32);
  mkrun 248 254 1 (-32); mkrun 255 255 1 121; mkrun 257 303 2 (-1);
  mkrun 305 305 1 (-232); mkrun 307 311 2 (-1); mkrun 314 328 2 (-1);
  mkrun 331 375 2 (-1); mkrun 378 382 2 (-1); mkrun 383 383 1 (-300);
  mkrun 384 384 1 195; mkrun 387 389 2 (-1); mkrun 392 392 1 (-1);
  mkrun 396 396 1 (-1); mkrun 402 402 1 (-1); mkrun 405 405 1 97;
  mkrun 409 409 1 (-1); mkrun 410 410 1 163; mkrun 414 414 1 130;
  mkrun 417 421 2 (-1); mkrun 424 424 1 (-1); mkrun 429 429 1 (-1);
  mkrun 432 432 1 (-1); mkrun 436 438 2 (-1); mkrun 441 441 1 (-1);
  mkrun 445 445 1 (-1); mkrun 447 447 1 56; mkrun 453 453 1 (-1);
  mkrun 454 454 1 (-2); mkrun 456 456 1 (-1); mkrun 457 457 1 (-2);
  mkrun 459 459 1 (-1); mkrun 460 460 1 (-2); mkrun 462 476 2 (-1);
  mkrun 477 477 1 (-79); mkrun 479 495 2 (-1); mkrun 498 498 1 (-1);
  mkrun 499 499 1 (-2); mkrun 501 501 1 (-1); mkrun 505 543 2 (-1);
  mkrun 547 563 2 (-1); mkrun 572 572 1 (-1); mkrun 575 576 1 10815;
  mkrun 578 578 1 (-1); mkrun 583 591 2 (-1); mkrun 592 592 1 10783;
  mkrun 593 593 1 10780; mkrun 594 594 1 10782; mkrun 595 595 1 (-210);
  mkrun 596 596 1 (-206); mkrun 598 599 1 (-205); mkrun 601 601 1 (-202);
  mkrun 603 603 1 (-203); mkrun 604 604 1 42319; mkrun 608 608 1 (-205);
  mkrun 609 609 1 42315; mkrun 611 611 1 (-207); mkrun 613 613 1 42280;
  mkrun 614 614 1 42308; mkrun 616 616 1 (-209); mkrun 617 617 1 (-211);
  mkrun 618 618 1 42308; mkrun 619 619 1 10743; mkrun 620 620 1 42305;
  mkrun 623 623 1 (-211); mkrun 625 625 1 10749; mkrun 626 626 1 (-213);
  mkrun 629 629 1 (-214); mkrun 637 637 1 10727; mkrun 640 640 1 (-218);
  mkrun 642 642 1 42307; mkrun 643 643 1 (-218); mkrun 647 647 1 42282;
  mkrun 648 648 1 (-218); mkrun 649 649 1 (-69); mkrun 650 651 1 (-217);
  mkrun 652 652 1 (-71); mkrun 658 658 1 (-219); mkrun 669 669 1 42261;
  mkrun 670 670 1 42258; mkrun 837 837 1 84; mkrun 881 883 2 (-1);
  mkrun 887 887 1 (-1); mkrun 891 893 1 130; mkrun 940 940 1 (-38);
  mkrun 941 943 1 (-37); mkrun 945 961 1 (-32); mkrun 962 962 1 (-31);
  mkrun 963 971 1 (-32); mkrun 972 972 1 (-64); mkrun 973 974 1 (-63);
  mkrun 976 976 1 (-62); mkrun 977 977 1 (-57); mkrun 981 981 1 (-47);
  mkrun 982 982 1 (-54); mkrun 983 983 1 (-8); mkrun 985 1007 2 (-1);
  mkrun 1008 1008 1 (-86); mkrun 1009 1009 1 (-80); mkrun 1010 1010 1 7;
  mkrun 1011 1011 1 (-116); mkrun 1013 1013 1 (-96); mkrun 1016 1016 1 (-1);
  mkrun 1019 1019 1 (-1); mkrun 1072 1103 1 (-32); mkrun 1104 1119 1 (-80);
  mkrun 1121 1153 2 (-1); mkrun 1163 1215 2 (-1); mkrun 1218 1230 2 (-1);
  mkrun 1231 1231 1 (-15); mkrun 1233 1327 2 (-1); mkrun 1377 1414 1 (-48);
  mkrun 4304 4346 1 3008; mkrun 4349 4351 1 3008; mkrun 5112 5117 1 (-8);
  mkrun 7296 7296 1 (-6254); mkrun 7297 7297 1 (-6253); mkrun 7298 7298 1 (-6244);
  mkrun 7299 7300 1 (-6242); mkrun 7301 7301 1 (-6243); mkrun 7302 7302 1 (-6236);
  mkrun 7303 7303 1 (-6181); mkrun 7304 7304 1 35266; mkrun 7545 7545 1 35332;
  mkrun 7549 7549 1 3814; mkrun 7566 7566 1 35384; mkrun 7681 7829 2 (-1);
  mkrun 7835 7835 1 (-59); mkrun 7841 7935 2 (-1); mkrun 7936 7943 1 8;
  mkrun 7952 7957 1 8; mkrun 7968 7975 1 8; mkrun 7984 7991 1 8;
  mkrun 8000 8005 1 8; mkrun 8017 8023 2 8; mkrun 8032 8039 1 8;
  mkrun 8048 8049 1 74; mkrun 8050 8053 1 86; mkrun 8054 8055 1 100;
  mkrun 8056 8057 1 128; mkrun 8058 8059 1 112; mkrun 8060 8061 1 126;
  mkrun 8112 8113 1 8; mkrun 8126 8126 1 (-7205); mkrun 8144 8145 1 8;
  mkrun 8160 8161 1 8; mkrun 8165 8165 1 7; mkrun 8526 8526 1 (-28);
  mkrun 8560 8575 1 (-16); mkrun 8580 8580 1 (-1); mkrun 9424 9449 1 (-26);
  mkrun 11312 11359 1 (-48); mkrun 11361 11361 1 (-1); mkrun 11365 11365 1 (-10795);
  mkrun 11366 11366 1 (-10792); mkrun 11368 11372 2 (-1); mkrun 11379 11379 1 (-1);
  mkrun 11382 11382 1 (-1); mkrun 11393 11491 2 (-1); mkrun 11500 11502 2 (-1);
  mkrun 11507 11507 1 (-1); mkrun 11520 11557 1 (-7264); mkrun 11559 11559 1 (-7264);
  mkrun 11565 11565 1 (-7264); mkrun 42561 42605 2 (-1); mkrun 42625 42651 2 (-1);
  mkrun 42787 42799 2 (-1); mkrun 42803 42863 2 (-1); mkrun 42874 42876 2 (-1);
  mkrun 42879 42887 2 (-1); mkrun 42892 42892 1 (-1); mkrun 42897 42899 2 (-1);
  mkrun 42900 42900 1 48; mkrun 42903 42921 2 (-1); mkrun 42933 42947 2 (-1);
  mkrun 42952 42954 2 (-1); mkrun 42961 42961 1 (-1); mkrun 42967 42969 2 (-1);
  mkrun 42998 42998 1 (-1); mkrun 43859 43859 1 (-928); mkrun 43888 43967 1 (-38864);
  mkrun 65345 65370 1 (-32); mkrun 66600 66639 1 (-40); mkrun 66776 66811 1 (-40);
  mkrun 66967 67003 2 (-39); mkrun 66968 66976 2 (-39); mkrun 66980 66992 2 (-39);
  mkrun 66996 67000 2 (-39); mkrun 67004 67004 1 (-39); mkrun 68800 68850 1 (-64);
  mkrun 71872 71903 1 (-32); mkrun 93792 93823 1 (-32); mkrun 125218 125251 1 (-34)].

(** [str.upper]: the code points mapped to several code points. *)
Definition upper_multi : list (N * list N) := [
  (223, [83; 83]); (329, [700; 78]); (496, [74; 780]); (912, [921; 776; 769]);
  (944, [933; 776; 769]); (1415, [1333; 1362]); (7830, [72; 817]); (7831, [84; 776]);
  (7832, [87; 778]); (7833, [89; 778]); (7834, [65; 702]); (8016, [933; 787]);
  (8018, [933; 787; 768]); (8020, [933; 787; 769]); (8022, [933; 787; 834]); (8064, [7944; 921]);
  (8065, [7945; 921]); (8066, [7946; 921]); (8067, [7947; 921]); (8068, [7948; 921]);
  (8069, [7949; 921]); (8070, [7950; 921]); (8071, [7951; 921]); (8072, [7944; 921]);
  (8073, [7945; 921]); (8074, [7946; 921]); (8075, [7947; 921]); (8076, [7948; 921]);
  (8077, [7949; 921]); (8078, [7950; 921]); (8079, [7951; 921]); (8080, [7976; 921]);
  (8081, [7977; 921]); (8082, [7978; 921]); (8083, [7979; 921]); (8084, [7980; 921]);
  (8085, [7981; 921]); (8086, [7982; 921]); (8087, [7983; 921]); (8088, [7976; 921]);
  (8089, [7977; 921]); (8090, [7978; 921]); (8091, [7979; 921]); (8092, [7980; 921]);
  (8093, [7981; 921]); (8094, [7982; 921]); (8095, [7983; 921]); (8096, [8040; 921]);
  (8097, [8041; 921]); (8098, [8042; 921]); (8099, [8043; 921]); (8100, [8044; 921]);
  (8101, [8045; 921]); (8102, [8046; 921]); (8103, [8047; 921]); (8104, [8040; 921]);
  (8105, [8041; 921]); (8106, [8042; 921]); (8107, [8043; 921]); (8108, [8044; 921]);
  (8109, [8045; 921]); (8110, [8046; 921]); (8111, [8047; 921]); (8114, [8122; 921]);
  (8115, [913; 921]); (8116, [902; 921]); (8118, [913; 834]); (8119, [913; 834; 921]);
  (8124, [913; 921]); (8130, [8138; 921]); (8131, [919; 921]); (8132, [905; 921]);
  (8134, [919; 834]); (8135, [919; 834; 921]); (8140, [919; 921]); (8146, [921; 776; 768]);
  (8147, [921; 776; 769]); (8150, [921; 834]); (8151, [921; 776; 834]); (8162, [933; 776; 768]);
  (8163, [933; 776; 769]); (8164, [929; 787]); (8166, [933; 834]); (8167, [933; 776; 834]);
  (8178, [8186; 921]); (8179, [937; 921]); (8180, [911; 921]); (8182, [937; 834]);
  (8183, [937; 834; 921]); (8188, [937; 921]); (64256, [70; 70]); (64257, [70; 73]);
  (64258, [70; 76]); (64259, [70; 70; 73]); (64260, [70; 70; 76]); (64261, [83; 84]);
  (64262, [83; 84]); (64275, [1348; 1350]); (64276, [1348; 1333]); (64277, [1348; 1339]);
  (64278, [1358; 1350]); (64279, [1348; 1341])].

(** [str.casefold]: the code points mapped to one other code point. *)
Definition casefold_single : list run := [
  mkrun 65 90 1 32; mkrun 181 181 1 775; mkrun 192 214 1 32;
  mkrun 216 222 1 32; mkrun 256 302 2 1; mkrun 306 310 2 1;
  mkrun 313 327 2 1; mkrun 330 374 2 1; mkrun 376 376 1 (-121);
  mkrun 377 381 2 1; mkrun 383 383 1 (-268); mkrun 385 385 1 210;
  mkrun 386 388 2 1; mkrun 390 390 1 206; mkrun 391 391 1 1;
  mkrun 393 394 1 205; mkrun 395 395 1 1; mkrun 398 398 1 79;
  mkrun 399 399 1 202; mkrun 400 400 1 203; mkrun 401 401 1 1;
  mkrun 403 403 1 205; mkrun 404 404 1 207; mkrun 406 406 1 211;
  mkrun 407 407 1 209; mkrun 408 408 1 1; mkrun 412 412 1 211;
  mkrun 413 413 1 213; mkrun 415 415 1 214; mkrun 416 420 2 1;
  mkrun 422 422 1 218; mkrun 423 423 1 1; mkrun 425 425 1 218;
  mkrun 428 428 1 1; mkrun 430 430 1 218; mkrun 431 431 1 1;
  mkrun 433 434 1 217; mkrun 435 437 2 1; mkrun 439 439 1 219;
  mkrun 440 440 1 1; mkrun 444 444 1 1; mkrun 452 452 1 2;
  mkrun 453 453 1 1; mkrun 455 455 1 2; mkrun 456 456 1 1;
  mkrun 458 458 1 2; mkrun 459 475 2 1; mkrun 478 494 2 1;
  mkrun 497 497 1 2; mkrun 498 500 2 1; mkrun 502 502 1 (-97);
  mkrun 503 503 1 (-56); mkrun 504 542 2 1; mkrun 544 544 1 (-130);
  mkrun 546 562 2 1; mkrun 570 570 1 10795; mkrun 571 571 1 1;
  mkrun 573 573 1 (-163); mkrun 574 574 1 10792; mkrun 577 577 1 1;
  mkrun 579 579 1 (-195); mkrun 580 580 1 69; mkrun 581 581 1 71;
  mkrun 582 590 2 1; mkrun 837 837 1 116; mkrun 880 882 2 1;
  mkrun 886 886 1 1; mkrun 895 895 1 116; mkrun 902 902 1 38;
  mkrun 904 906 1 37; mkrun 908 908 1 64; mkrun 910 911 1 63;
  mkrun 913 929 1 32; mkrun 931 939 1 32; mkrun 962 962 1 1;
  mkrun 975 975 1 8; mkrun 976 976 1 (-30); mkrun 977 977 1 (-25);
  mkrun 981 981 1 (-15); mkrun 982 982 1 (-22); mkrun 984 1006 2 1;
  mkrun 1008 1008 1 (-54); mkrun 1009 1009 1 (-48); mkrun 1012 1012 1 (-60);
  mkrun 1013 1013 1 (-64); mkrun 1015 1015 1 1; mkrun 1017 1017 1 (-7);
  mkrun 1018 1018 1 1; mkrun 1021 1023 1 (-130); mkrun 1024 1039 1 80;
  mkrun 1040 1071 1 32; mkrun 1120 1152 2 1; mkrun 1162 1214 2 1;
  mkrun 1216 1216 1 15; mkrun 1217 1229 2 1; mkrun 1232 1326 2 1;
  mkrun 1329 1366 1 48; mkrun 4256 4293 1 7264; mkrun 4295 4295 1 7264;
  mkrun 4301 4301 1 7264; mkrun 5112 5117 1 (-8); mkrun 7296 7296 1 (-6222);
  mkrun 7297 7297 1 (-6221); mkrun 7298 7298 1 (-6212); mkrun 7299 7300 1 (-6210);
  mkrun 7301 7301 1 (-6211); mkrun 7302 7302 1 (-6204); mkrun 7303 7303 1 (-6180);
  mkrun 7304 7304 1 35267; mkrun 7312 7354 1 (-3008); mkrun 7357 7359 1 (-3008);
  mkrun 7680 7828 2 1; mkrun 7835 7835 1 (-58); mkrun 7840 7934 2 1;
  mkrun 7944 7951 1 (-8); mkrun 7960 7965 1 (-8); mkrun 7976 7983 1 (-8);
  mkrun 7992 7999 1 (-8); mkrun 8008 8013 1 (-8); mkrun 8025 8031 2 (-8);
  mkrun 8040 8047 1 (-8); mkrun 8120 8121 1 (-8); mkrun 8122 8123 1 (-74);
  mkrun 8126 8126 1 (-7173); mkrun 8136 8139 1 (-86); mkrun 8152 8153 1 (-8);
  mkrun 8154 8155 1 (-100); mkrun 8168 8169 1 (-8); mkrun 8170 8171 1 (-112);
  mkrun 8172 8172 1 (-7); mkrun 8184 8185 1 (-128); mkrun 8186 8187 1 (-126);
  mkrun 8486 8486 1 (-7517); mkrun 8490 8490 1 (-8383); mkrun 8491 8491 1 (-8262);
  mkrun 8498 8498 1 28; mkrun 8544 8559 1 16; mkrun 8579 8579 1 1;
  mkrun 9398 9423 1 26; mkrun 11264 11311 1 48; mkrun 11360 11360 1 1;
  mkrun 11362 11362 1 (-10743); mkrun 11363 11363 1 (-3814); mkrun 11364 11364 1 (-10727);
  mkrun 11367 11371 2 1; mkrun 11373 11373 1 (-10780); mkrun 11374 11374 1 (-10749);
  mkrun 11375 11375 1 (-10783); mkrun 11376 11376 1 (-10782); mkrun 11378 11378 1 1;
  mkrun 11381 11381 1 1; mkrun 11390 11391 1 (-10815); mkrun 11392 11490 2 1;
  mkrun 11499 11501 2 1; mkrun 11506 11506 1 1; mkrun 42560 42604 2 1;
  mkrun 42624 42650 2 1; mkrun 42786 42798 2 1; mkrun 42802 42862 2 1;
  mkrun 42873 42875 2 1; mkrun 42877 42877 1 (-35332); mkrun 42878 42886 2 1;
  mkrun 42891 42891 1 1; mkrun 42893 42893 1 (-42280); mkrun 42896 42898 2 1;
  mkrun 42902 42920 2 1; mkrun 42922 42922 1 (-42308); mkrun 42923 42923 1 (-42319);
  mkrun 42924 42924 1 (-42315); mkrun 42925 42925 1 (-42305); mkrun 42926 42926 1 (-42308);
  mkrun 42928 42928 1 (-42258); mkrun 42929 42929 1 (-42282); mkrun 42930 42930 1 (-42261);
  mkrun 42931 42931 1 928; mkrun 42932 42946 2 1; mkrun 42948 42948 1 (-48);
  mkrun 42949 42949 1 (-42307); mkrun 42950 42950 1 (-35384); mkrun 42951 42953 2 1;
  mkrun 42960 42960 1 1; mkrun 42966 42968 2 1; mkrun 42997 42997 1 1;
  mkrun 43888 43967 1 (-38864); mkrun 65313 65338 1 32; mkrun 66560 66599 1 40;
  mkrun 66736 66771 1 40; mkrun 66928 66964 2 39; mkrun 66929 66937 2 39;
  mkrun 66941 66953 2 39; mkrun 66957 66961 2 39; mkrun 66965 66965 1 39;
  mkrun 68736 68786 1 64; mkrun 71840 71871 1 32; mkrun 93760 93791 1 32;
  mkrun 125184 125217 1 34].

(** [str.casefold]: the code points mapped to several code points. *)
Definition casefold_multi : list (N * list N) := [
  (223, [115; 115]); (304, [105; 775]); (329, [700; 110]); (496, [106; 780]);
  (912, [953; 776; 769]); (944, [965; 776; 769]); (1415, [1381; 1410]); (7830, [104; 817]);
  (7831, [116; 776]); (7832, [119; 778]); (7833, [121; 778]); (7834, [97; 702]);
  (7838, [115; 115]); (8016, [965; 787]); (8018, [965; 787; 768]); (8020, [965; 787; 769]);
  (8022, [965; 787; 834]); (8064, [7936; 953]); (8065, [7937; 953]); (8066, [7938; 953]);
  (8067, [7939; 953]); (8068, [7940; 953]); (8069, [7941; 953]); (8070, [7942; 953]);
  (8071, [7943; 953]); (8072, [7936; 953]); (8073, [7937; 953]); (8074, [7938; 953]);
  (8075, [7939; 953]); (8076, [7940; 953]); (8077, [7941; 953]); (8078, [7942; 953]);
  (8079, [7943; 953]); (8080, [7968; 953]); (8081, [7969; 953]); (8082, [7970; 953]);
  (8083, [7971; 953]); (8084, [7972; 953]); (8085, [7973; 953]); (8086, [7974; 953]);
  (8087, [7975; 953]); (8088, [7968; 953]); (8089, [7969; 953]); (8090, [7970; 953]);
  (8091, [7971; 953]); (8092, [7972; 953]); (8093, [7973; 953]); (8094, [7974; 953]);
  (8095, [7975; 953]); (8096, [8032; 953]); (8097, [8033; 953]); (8098, [8034; 953]);
  (8099, [8035; 953]); (8100, [8036; 953]); (8101, [8037; 953]); (8102, [8038; 953]);
  (8103, [8039; 953]); (8104, [8032; 953]); (8105, [8033; 953]); (8106, [8034; 953]);
  (8107, [8035; 953]); (8108, [8036; 953]); (8109, [8037; 953]); (8110, [8038; 953]);
  (8111, [8039; 953]); (8114, [8048; 953]); (8115, [945; 953]); (8116, [940; 953]);
  (8118, [945; 834]); (8119, [945; 834; 953]); (8124, [945; 953]); (8130, [8052; 953]);
  (8131, [951; 953]); (8132, [942; 953]); (8134, [951; 834]); (8135, [951; 834; 953]);
  (8140, [951; 953]); (8146, [953; 776; 768]); (8147, [953; 776; 769]); (8150, [953; 834]);
  (8151, [953; 776; 834]); (8162, [965; 776; 768]); (8163, [965; 776; 769]); (8164, [961; 787]);
  (8166, [965; 834]); (8167, [965; 776; 834]); (8178, [8060; 953]); (8179, [969; 953]);
  (8180, [974; 953]); (8182, [969; 834]); (8183, [969; 834; 953]); (8188, [969; 953]);
  (64256, [102; 102]); (64257, [102; 105]); (64258, [102; 108]); (64259, [102; 102; 105]);
  (64260, [102; 102; 108]); (64261, [115; 116]); (64262, [115; 116]); (64275, [1396; 1398]);
  (64276, [1396; 1381]); (64277, [1396; 1387]); (64278, [1406; 1398]); (64279, [1396; 1389])].

(** Case_Ignorable: skipped when looking for the letter before or after a capital sigma. *)
Definition case_ignorable : list (N * N) := [
  (39, 39); (46, 46); (58, 58); (94, 94); (96, 96); (168, 168);
  (173, 173); (175, 175); (180, 180); (183, 184); (688, 879); (884, 885);
  (890, 890); (900, 901); (903, 903); (1155, 1161); (1369, 1369); (1375, 1375);
  (1425, 1469); (1471, 1471); (1473, 1474); (1476, 1477); (1479, 1479); (1524, 1524);
  (1536, 1541); (1552, 1562); (1564, 1564); (1600, 1600); (1611, 1631); (1648, 1648);
  (1750, 1757); (1759, 1768); (1770, 1773); (1807, 1807); (1809, 1809); (1840, 1866);
  (1958, 1968); (2027, 2037); (2042, 2042); (2045, 2045); (2070, 2093); (2137, 2139);
  (2184, 2184); (2192, 2193); (2200, 2207); (2249, 2306); (2362, 2362); (2364, 2364);
  (2369, 2376); (2381, 2381); (2385, 2391); (2402, 2403); (2417, 2417); (2433, 2433);
  (2492, 2492); (2497, 2500); (2509, 2509); (2530, 2531); (2558, 2558); (2561, 2562);
  (2620, 2620); (2625, 2626); (2631, 2632); (2635, 2637); (2641, 2641); (2672, 2673);
  (2677, 2677); (2689, 2690); (2748, 2748); (2753, 2757); (2759, 2760); (2765, 2765);
  (2786, 2787); (2810, 2815); (2817, 2817); (2876, 2876); (2879, 2879); (2881, 2884);
  (2893, 2893); (2901, 2902); (2914, 2915); (2946, 2946); (3008, 3008); (3021, 3021);
  (3072, 3072); (3076, 3076); (3132, 3132); (3134, 3136); (3142, 3144); (3146, 3149);
  (3157, 3158); (3170, 3171); (3201, 3201); (3260, 3260); (3263, 3263); (3270, 3270);
  (3276, 3277); (3298, 3299); (3328, 3329); (3387, 3388); (3393, 3396); (3405, 3405);
  (3426, 3427); (3457, 3457); (3530, 3530); (3538, 3540); (3542, 3542); (3633, 3633);
  (3636, 3642); (3654, 3662); (3761, 3761); (3764, 3772); (3782, 3782); (3784, 3789);
  (3864, 3865); (3893, 3893); (3895, 3895); (3897, 3897); (3953, 3966); (3968, 3972);
  (3974, 3975); (3981, 3991); (3993, 4028); (4038, 4038); (4141, 4144); (4146, 4151);
  (4153, 4154); (4157, 4158); (4184, 4185); (4190, 4192); (4209, 4212); (4226, 4226);
  (4229, 4230); (4237, 4237); (4253, 4253); (4348, 4348); (4957, 4959); (5906, 5908);
  (5938, 5939); (5970, 5971); (6002, 6003); (6068, 6069); (6071, 6077); (6086, 6086);
  (6089, 6099); (6103, 6103); (6109, 6109); (6155, 6159); (6211, 6211); (6277, 6278);
  (6313, 6313); (6432, 6434); (6439, 6440); (6450, 6450); (6457, 6459); (6679, 6680);
  (6683, 6683); (6742, 6742); (6744, 6750); (6752, 6752); (6754, 6754); (6757, 6764);
  (6771, 6780); (6783, 6783); (6823, 6823); (6832, 6862); (6912, 6915); (6964, 6964);
  (6966, 6970); (6972, 6972); (6978, 6978); (7019, 7027); (7040, 7041); (7074, 7077);
  (7080, 7081); (7083, 7085); (7142, 7142); (7144, 7145); (7149, 7149); (7151, 7153);
  (7212, 7219); (7222, 7223); (7288, 7293); (7376, 7378); (7380, 7392); (7394, 7400);
  (7405, 7405); (7412, 7412); (7416, 7417); (7468, 7530); (7544, 7544); (7579, 7679);
  (8125, 8125); (8127, 8129); (8141, 8143); (8157, 8159); (8173, 8175); (8189, 8190);
  (8203, 8207); (8216, 8217); (8228, 8228); (8231, 8231); (8234, 8238); (8288, 8292);
  (8294, 8303); (8305, 8305); (8319, 8319); (8336, 8348); (8400, 8432); (11388, 11389);
  (11503, 11505); (11631, 11631); (11647, 11647); (11744, 11775); (11823, 11823); (12293, 12293);
  (12330, 12333); (12337, 12341); (12347, 12347); (12441, 12446); (12540, 12542); (40981, 40981);
  (42232, 42237); (42508, 42508); (42607, 42610); (42612, 42621); (42623, 42623); (42652, 42655);
  (42736, 42737); (42752, 42785); (42864, 42864); (42888, 42890); (42994, 42996); (43000, 43001);
  (43010, 43010); (43014, 43014); (43019, 43019); (43045, 43046); (43052, 43052); (43204, 43205);
  (43232, 43249); (43263, 43263); (43302, 43309); (43335, 43345); (43392, 43394); (43443, 43443);
  (43446, 43449); (43452, 43453); (43471, 43471); (43493, 43494); (43561, 43566); (43569, 43570);
  (43573, 43574); (43587, 43587); (43596, 43596); (43632, 43632); (43644, 43644); (43696, 43696);
  (43698, 43700); (43703, 43704); (43710, 43711); (43713, 43713); (43741, 43741); (43756, 43757);
  (43763, 43764); (43766, 43766); (43867, 43871); (43881, 43883); (44005, 44005); (44008, 44008);
  (44013, 44013); (64286, 64286); (64434, 64450); (65024, 65039); (65043, 65043); (65056, 65071);
  (65106, 65106); (65109, 65109); (65279, 65279); (65287, 65287); (65294, 65294); (65306, 65306);
  (65342, 65342); (65344, 65344); (65392, 65392); (65438, 65439); (65507, 65507); (65529, 65531);
  (66045, 66045); (66272, 66272); (66422, 66426); (67456, 67461); (67463, 67504); (67506, 67514);
  (68097, 68099); (68101, 68102); (68108, 68111); (68152, 68154); (68159, 68159); (68325, 68326);
  (68900, 68903); (69291, 69292); (69446, 69456); (69506, 69509); (69633, 69633); (69688, 69702);
  (69744, 69744); (69747, 69748); (69759, 69761); (69811, 69814); (69817, 69818); (69821, 69821);
  (69826, 69826); (69837, 69837); (69888, 69890); (69927, 69931); (69933, 69940); (70003, 70003);
  (70016, 70017); (70070, 70078); (70089, 70092); (70095, 70095); (70191, 70193); (70196, 70196);
  (70198, 70199); (70206, 70206); (70367, 70367); (70371, 70378); (70400, 70401); (70459, 70460);
  (70464, 70464); (70502, 70508); (70512, 70516); (70712, 70719); (70722, 70724); (70726, 70726);
  (70750, 70750); (70835, 70840); (70842, 70842); (70847, 70848); (70850, 70851); (71090, 71093);
  (71100, 71101); (71103, 71104); (71132, 71133); (71219, 71226); (71229, 71229); (71231, 71232);
  (71339, 71339); (71341, 71341); (71344, 71349); (71351, 71351); (71453, 71455); (71458, 71461);
  (71463, 71467); (71727, 71735); (71737, 71738); (71995, 71996); (71998, 71998); (72003, 72003);
  (72148, 72151); (72154, 72155); (72160, 72160); (72193, 72202); (72243, 72248); (72251, 72254);
  (72263, 72263); (72273, 72278); (72281, 72283); (72330, 72342); (72344, 72345); (72752, 72758);
  (72760, 72765); (72767, 72767); (72850, 72871); (72874, 72880); (72882, 72883); (72885, 72886);
  (73009, 73014); (73018, 73018); (73020, 73021); (73023, 73029); (73031, 73031); (73104, 73105);
  (73109, 73109); (73111, 73111); (73459, 73460); (78896, 78904); (92912, 92916); (92976, 92982);
  (92992, 92995); (94031, 94031); (94095, 94111); (94176, 94177); (94179, 94180); (110576, 110579);
  (110581, 110587); (110589, 110590); (113821, 113822); (113824, 113827); (118528, 118573); (118576, 118598);
  (119143, 119145); (119155, 119170); (119173, 119179); (119210, 119213); (119362, 119364); (121344, 121398);
  (121403, 121452); (121461, 121461); (121476, 121476); (121499, 121503); (121505, 121519); (122880, 122886);
  (122888, 122904); (122907, 122913); (122915, 122916); (122918, 122922); (123184, 123197); (123566, 123566);
  (123628, 123631); (125136, 125142); (125252, 125259); (127995, 127999); (917505, 917505); (917536, 917631);
  (917760, 917999)].

(** Cased: the lower case, upper case and title case letters. *)
Definition cased : list (N * N) := [
  (65, 90); (97, 122); (170, 170); (181, 181); (186, 186); (192, 214);
  (216, 246); (248, 442); (444, 447); (452, 659); (661, 696); (704, 705);
  (736, 740); (837, 837); (880, 883); (886, 887); (890, 893); (895, 895);
  (902, 902); (904, 906); (908, 908); (910, 929); (931, 1013); (1015, 1153);
  (1162, 1327); (1329, 1366); (1376, 1416); (4256, 4293); (4295, 4295); (4301, 4301);
  (4304, 4346); (4349, 4351); (5024, 5109); (5112, 5117); (7296, 7304); (7312, 7354);
  (7357, 7359); (7424, 7615); (7680, 7957); (7960, 7965); (7968, 8005); (8008, 8013);
  (8016, 8023); (8025, 8025); (8027, 8027); (8029, 8029); (8031, 8061); (8064, 8116);
  (8118, 8124); (8126, 8126); (8130, 8132); (8134, 8140); (8144, 8147); (8150, 8155);
  (8160, 8172); (8178, 8180); (8182, 8188); (8305, 8305); (8319, 8319); (8336, 8348);
  (8450, 8450); (8455, 8455); (8458, 8467); (8469, 8469); (8473, 8477); (8484, 8484);
  (8486, 8486); (8488, 8488); (8490, 8493); (8495, 8500); (8505, 8505); (8508, 8511);
  (8517, 8521); (8526, 8526); (8544, 8575); (8579, 8580); (9398, 9449); (11264, 11492);
  (11499, 11502); (11506, 11507); (11520, 11557); (11559, 11559); (11565, 11565); (42560, 42605);
  (42624, 42653); (42786, 42887); (42891, 42894); (42896, 42954); (42960, 42961); (42963, 42963);
  (42965, 42969); (42997, 42998); (43000, 43002); (43824, 43866); (43868, 43880); (43888, 43967);
  (64256, 64262); (64275, 64279); (65313, 65338); (65345, 65370); (66560, 66639); (66736, 66771);
  (66776, 66811); (66928, 66938); (66940, 66954); (66956, 66962); (66964, 66965); (66967, 66977);
  (66979, 66993); (66995, 67001); (67003, 67004); (67456, 67456); (67459, 67461); (67463, 67504);
  (67506, 67514); (68736, 68786); (68800, 68850); (71840, 71903); (93760, 93823); (119808, 119892);
  (119894, 119964); (119966, 119967); (119970, 119970); (119973, 119974); (119977, 119980); (119982, 119993);
  (119995, 119995); (119997, 120003); (120005, 120069); (120071, 120074); (120077, 120084); (120086, 120092);
  (120094, 120121); (120123, 120126); (120128, 120132); (120134, 120134); (120138, 120144); (120146, 120485);
  (120488, 120512); (120514, 120538); (120540, 120570); (120572, 120596); (120598, 120628); (120630, 120654);
  (120656, 120686); (120688, 120712); (120714, 120744); (120746, 120770); (120772, 120779); (122624, 122633);
  (122635, 122654); (125184, 125251); (127280, 127305); (127312, 127337); (127344, 127369)].

(** The characters [str.strip()] removes ([str.isspace]). *)
Definition whitespace : list (N * N) := [
  (9, 13); (28, 32); (133, 133); (160, 160); (5760, 5760); (8192, 8202);
  (8232, 8233); (8239, 8239); (8287, 8287); (12288, 12288)].

(** [handle_capital_sigma]: U+03A3 lowers to the final form U+03C2 when a
    cased letter precedes it and none follows, case-ignorable code points
    skipped on both sides. *)
Fixpoint skip_ignorable (l : list N) : list N :=
  match l with
  | [] => []
  | c :: l' => if in_ranges case_ignorable c then skip_ignorable l' else l
  end.

Definition cased_next (l : list N) : bool :=
  match skip_ignorable l with
  | c :: _ => in_ranges cased c
  | [] => false
  end.

(** [before]: the code points before the sigma, nearest first. *)
Definition final_sigma (before after : list N) : bool :=
  cased_next before && negb (cased_next after).

(** [lower_ucs4], one code point [c]: [before] holds the code points
    before it, nearest first, and [after] those after it. *)
Definition lower_char (before : list N) (c : N) (after : list N) : list N :=
  if c =? 931 then [if final_sigma before after then 962 else 963]
  else case_map lower_single lower_multi c.

Fixpoint lower_go (before l : list N) : list N :=
  match l with
  | [] => []
  | c :: after => (lower_char before c after ++ lower_go (c :: before) after)%list
  end.

Definition lower_cps (cps : list N) : list N := lower_go [] cps.
Definition upper_cps (cps : list N) : list N := flat_map (case_map upper_single upper_multi) cps.
Definition casefold_cps (cps : list N) : list N :=
  flat_map (case_map casefold_single casefold_multi) cps.

Definition on_text (f : list N -> list N) (s : string) : string :=
  match decode s with
  | Some cps => encode (f cps)
  | None => s
  end.

(** [s.lower()], [s.upper()], [s.casefold()] *)
Definition lower (s : string) : string := on_text lower_cps s.
Definition upper (s : string) : string := on_text upper_cps s.
Definition casefold (s : string) : string := on_text casefold_cps s.

(** [Py_UNICODE_ISSPACE] *)
Definition is_space (c : N) : bool := in_ranges whitespace c.

Fixpoint drop_space (l : list N) : list N :=
  match l with
  | [] => []
  | c :: l' => if is_space c then drop_space l' else l
  end.

Definition strip_cps (cps : list N) : list N := List.rev (drop_space (List.rev (drop_space cps))).

(** [s.strip()] *)
Definition strip (s : string) : string := on_text strip_cps s.

(** [s.startswith(prefix)]: on UTF-8 text, a code point prefix is a byte
    prefix. *)
Definition startswith (s prefix : string) : bool := String.prefix prefix s.

End PyStr.

(* ------------------------------------------------------------------ *)
(** ** [config/database_config.py]: the factory *)

Module Factory.
Import Adapter.

(** [kwargs.get(key, default)] *)
Definition kwargs_get (kwargs : list (string * pyval)) (key : string) (default : pyval) : pyval :=
  match find (fun kv => String.eqb (fst kv) key) kwargs with
  | Some (_, v) => v
  | None => default
  end.

Definition get_database (db_type : string) (db_path : string) (kwargs : list (string * pyval))
    : result DuckDBAdapter :=
  if String.eqb (PyStr.lower db_type) "duckdb" then
    Ok (DuckDBAdapter_init db_path
          (kwargs_get kwargs "memory_limit" (PStr Config.DEFAULT_MEMORY_LIMIT))
          (kwargs_get kwargs "threads" (PInt Config.DEFAULT_THREADS)))
  else Exc ValueError.

Definition get_default_database : result DuckDBAdapter :=
  get_database "duckdb" Config.DB_PATH [].

End Factory.

(* ------------------------------------------------------------------ *)
(** ** [transformation/duckdb_reader.py] *)

Module Reader.
Import Engine Adapter.

Record DuckDBReader := mkreader { db : DuckDBAdapter; raw_path : Path }.

(** [DuckDBReader()]: [self.db = get_default_database()]. *)
Definition DuckDBReader_init : result DuckDBReader :=
  match Factory.get_default_database with
  | Ok a => Ok (mkreader a Config.RAW_DATA_PATH)
  | Exc e => Exc e
  end.

Definition read_all_cases (self : DuckDBReader) : M DataFrame :=
  with_ (db self) (fun conn => call_fetch_df conn (SReadParquet (raw_path self) [])).

(** [where_clauses = [f"year = {year}"] + month + day] *)
Definition date_where (year : nat) (month day : option nat) : list atom :=
  ([AEq "year" year]
   ++ match month with Some m => [AEq "month" m] | None => [] end
   ++ match day with Some d => [AEq "day" d] | None => [] end)%list.

Definition read_cases_by_date (self : DuckDBReader) (year : nat) (month day : option nat)
    : M DataFrame :=
  with_ (db self) (fun conn =>
    call_fetch_df conn (SReadParquet (raw_path self) (date_where year month day))).

Definition range_where (start_date end_date : Date.datetime) : list atom :=
  [AGe "year" (Date.year start_date); ALe "year" (Date.year end_date);
   AGe "month" (Date.month start_date); ALe "month" (Date.month end_date)].

Definition read_cases_by_date_range (self : DuckDBReader) (start_date end_date : Date.datetime)
    : M DataFrame :=
  with_ (db self) (fun conn =>
    call_fetch_df conn (SReadParquet (raw_path self) (range_where start_date end_date))).

(** The [query] chosen by [query_cases]. *)
Definition query_cases_query (raw : Path) (sql_filter : string) : stmt :=
  if PyStr.startswith (PyStr.upper (PyStr.strip sql_filter)) "SELECT"
  then SRaw sql_filter
  else SReadParquetWhere raw sql_filter.

Definition query_cases (self : DuckDBReader) (sql_filter : string) : M DataFrame :=
  with_ (db self) (fun conn => call_fetch_df conn (query_cases_query (raw_path self) sql_filter)).

(** [str(path)] for a relative path. *)
Definition path_str (p : Path) : string := concat "/" p.

(** The aggregate query of [get_partition_stats]. *)
Definition partition_stats_sql (raw : Path) : string :=
  "SELECT year, month, day, COUNT(*) as case_count, COUNT(DISTINCT CASE_ID) as unique_cases FROM read_parquet('"
  ++ path_str raw ++ "/**/*.parquet', hive_partitioning = true) GROUP BY year, month, day ORDER BY year DESC, month DESC, day DESC".

Definition get_partition_stats (self : DuckDBReader) : M DataFrame :=
  with_ (db self) (fun conn => call_fetch_df conn (SRaw (partition_stats_sql (raw_path self)))).

End Reader.

(* ------------------------------------------------------------------ *)
(** ** [tests/test_connection.py] *)

Module Tests.
Import Engine Adapter.

(** [result[0]] on what [fetch_one] returned. *)
Definition first_cell (r : option row) : M unit :=
  match r with
  | Some (_ :: _) => ret tt
  | _ => raise TypeError
  end.

(** The body of [with db:] in [test_connection]. *)
Definition test_connection_body (db : DuckDBAdapter) : M bool :=
  result <- fetch_one db (SRaw "SELECT 'Connection successful!' as message") ;;
  first_cell result ;;;
  version <- fetch_one db (SRaw "SELECT version()") ;;
  first_cell version ;;;
  fetch_df db (SRaw "SELECT 1 as id, 'test' as name") ;;;
  table_exists db "nonexistent_table".

Definition test_connection : M bool :=
  match Factory.get_default_database with
  | Ok db => with_ db (fun _ => test_connection_body db)
  | Exc e => raise e
  end.

End Tests.
(* ------------------------------------------------------------------ *)
(** ** Concrete inputs used to evaluate the code *)

Module Samples.
Import Engine Adapter.

Definition sample_df : DataFrame := [[("CASE_ID", CNum 1); ("STATUS", CText "Resolved")]].
Definition feb11 : Date.datetime := Date.mkdate 2025 2 11.
Definition jan1 : Date.datetime := Date.mkdate 2025 1 1.
Definition dec31 : Date.datetime := Date.mkdate 2025 12 31.

(** An absolute working directory, as [Path.cwd()] always is. *)
Definition cwd0 : Path := ["/"; "home"; "dwh"].

(** ["DUC\u212aDB"]: [duckdb] spelt with the Kelvin sign U+212A, whose
    lower case and case-folding are [k]. *)
Definition duc_kelvin_db : string :=
  "DUC" ++ String (ascii_of_nat 226) (String (ascii_of_nat 132) (String (ascii_of_nat 170) "DB")).

(** A loader over the default raw tree, as [ParquetLoader()] would be if
    its module could be loaded. *)
Definition layout : Loader.ParquetLoader := {| Loader.base_path := Config.RAW_DATA_PATH |}.

(** Where that loader would write the extract of a date, with [%Y] padded. *)
Definition loader_file (d : Date.datetime) : Path := Loader.output_path true layout d.
Definition feb11_file : Path := loader_file feb11.

(** An engine that raises on every data statement. *)
Definition no_data : stmt -> list (string * DataFrame) -> fsys -> option (list (string * DataFrame))
    -> option (list (string * DataFrame) * fsys * DataFrame) :=
  fun _ _ _ _ => None.

(** A fresh adapter over a database with no tables and one raw file. *)
Definition w0 : world :=
  mkworld None [] [] [(feb11_file, sample_df)] true (fun _ _ => true) (fun _ => None) no_data.

Definition a0 : DuckDBAdapter := DuckDBAdapter_init "dwh.duckdb" (PStr "4GB") (PInt 4).
Definition r0 : Reader.DuckDBReader := Reader.mkreader a0 Config.RAW_DATA_PATH.

(** Extracts of three months. *)
Definition jan15 : Date.datetime := Date.mkdate 2025 1 15.
Definition mar3 : Date.datetime := Date.mkdate 2025 3 3.
Definition w3 : world :=
  mkworld None [] []
    [(loader_file jan15, sample_df); (feb11_file, sample_df); (loader_file mar3, sample_df)]
    true (fun _ _ => true) (fun _ => None) no_data.

(** An adapter holding connection 0 in auto-commit mode, over a catalog
    with one table; the engine answers every caller query with [sample_df]. *)
Definition w_held : world :=
  mkworld (Some 0) [mkconn true None []] [("cases", sample_df)] [(feb11_file, sample_df)]
    true (fun _ _ => true) (fun _ => Some sample_df) no_data.

End Samples.

Module Predicates.
Import Engine Adapter.

(** Connection [h] is open. *)
Definition conn_open (w : world) (h : nat) : Prop :=
  exists c, nth_error (conns w) h = Some c /\ c_open c = true.

(** The adapter can reach the engine: it holds an open connection, or it
    holds none and the engine will open and configure one. *)
Definition healthy (self : DuckDBAdapter) (w : world) : Prop :=
  match a_conn w with
  | Some h => conn_open w h
  | None =>
      can_open w = true
      /\ set_ok w "memory_limit" ("'" ++ pyval_str (memory_limit self) ++ "'") = true
      /\ set_ok w "threads" (pyval_str (threads self)) = true
  end.

(** Every open connection is the one the adapter holds. *)
Definition inv (w : world) : Prop :=
  forall i c, nth_error (conns w) i = Some c -> c_open c = true -> a_conn w = Some i.

(** [m] keeps the invariant. *)
Definition preserves {A} (m : M A) : Prop := forall w, inv w -> inv (fst (m w)).

(** The adapter holds connection [h], open, in transaction state [tx]. *)
Definition held (w : world) (h : nat) (tx : option (list (string * DataFrame))) : Prop :=
  a_conn w = Some h /\ exists c, nth_error (conns w) h = Some c /\ c_open c = true /\ c_txn c = tx.

(** The engine's fixed behaviour is the same in [w] and [w']. *)
Definition same_env (w w' : world) : Prop :=
  can_open w' = can_open w /\ set_ok w' = set_ok w /\ raw_sql w' = raw_sql w
  /\ run_data w' = run_data w.

End Predicates.

(** Case-insensitive comparison, as the specification words it: the two
    texts are equal once case-folded ([s.casefold() == t.casefold()],
    Python's caseless matching).  This follows the specification's text,
    to be compared with the code's [lower]. *)
Module SpecText.
Import PyStr.

Fixpoint cps_eqb (a b : list N) : bool :=
  match a, b with
  | [], [] => true
  | x :: a', y :: b' => N.eqb x y && cps_eqb a' b'
  | _, _ => false
  end.

(** [s] and [t] are equal, case-insensitively. *)
Definition ci_equal (s t : string) : bool :=
  match decode s, decode t with
  | Some a, Some b => cps_eqb (casefold_cps a) (casefold_cps b)
  | _, _ => String.eqb s t
  end.

End SpecText.

Module FmtFacts.

Lemma nat_of_digit k : k < 10 -> nat_of_ascii (digit k) = 48 + k.
Proof. intros Hk. unfold digit. apply nat_ascii_embedding. lia. Qed.

Lemma digits_value_digit k acc s :
  k < 10 ->
  digits_value_acc (String (digit k) s) acc = digits_value_acc s (acc * 10 + k).
Proof.
  intros Hk. cbn [digits_value_acc]. rewrite nat_of_digit by exact Hk.
  replace ((48 <=? 48 + k) && (48 + k <=? 57)) with true
    by (symmetry; apply andb_true_intro; split; apply Nat.leb_le; lia).
  f_equal. lia.
Qed.

Lemma digits_value_string_of_uint u acc :
  digits_value_acc (NilEmpty.string_of_uint u) acc = Some (Nat.of_uint_acc u acc).
Proof.
  revert acc.
  induction u; intros acc; simpl; rewrite ?IHu, ?Nat.tail_mul_spec;
    try reflexivity; do 2 f_equal; lia.
Qed.

(** [str(n)] reads back as [n]. *)
Lemma py_str_value n : digits_value (py_str n) = Some n.
Proof.
  unfold digits_value, py_str. rewrite digits_value_string_of_uint.
  f_equal. apply DecimalNat.Unsigned.of_to.
Qed.

Lemma mod10_lt n : n mod 10 < 10.
Proof. apply Nat.mod_upper_bound. lia. Qed.

Lemma two_digits_arith y :
  y < 100 -> (y / 10 mod 10) * 10 + y mod 10 = y.
Proof.
  intros Hy.
  assert (H2 : y / 10 / 10 = 0).
  { rewrite Nat.Div0.div_div. apply Nat.div_small. exact Hy. }
  pose proof (Nat.div_mod_eq y 10). pose proof (Nat.div_mod_eq (y / 10) 10).
  rewrite H2 in H0.
  generalize dependent (y / 10). intros. lia.
Qed.

Lemma strftime_2_value n : n < 100 -> digits_value (strftime_2 n) = Some n.
Proof.
  intros Hn. unfold digits_value, strftime_2.
  rewrite !digits_value_digit by apply mod10_lt. cbn [digits_value_acc].
  f_equal. apply two_digits_arith. exact Hn.
Qed.

Lemma forallb_seq_spec (f : nat -> bool) lo n :
  forallb f (seq lo n) = true -> forall m, lo <= m < lo + n -> f m = true.
Proof.
  rewrite forallb_forall. intros H m Hm. apply H. apply in_seq. lia.
Qed.

(** Below 100, [f"{n:02d}"] and [strftime] agree digit for digit. *)
Lemma fmt_02d_strftime_2 n : n < 100 -> fmt_02d n = strftime_2 n.
Proof.
  intros Hn.
  apply String.eqb_eq.
  apply (forallb_seq_spec (fun k => String.eqb (fmt_02d k) (strftime_2 k)) 0 100);
    [vm_compute; reflexivity | lia].
Qed.

(** Leading zeros do not change the value read back. *)
Lemma digits_value_zeros k s : digits_value (zeros k ++ s) = digits_value s.
Proof.
  unfold digits_value. induction k as [|k IH]; [reflexivity|].
  change (zeros (S k) ++ s) with (String (digit 0) (zeros k ++ s)).
  rewrite digits_value_digit by lia. exact IH.
Qed.

(** [strftime('%Y')] reads back as the year, padded or not. *)
Lemma strftime_Y_value pads_Y y : digits_value (strftime_Y pads_Y y) = Some y.
Proof.
  unfold strftime_Y, zfill. destruct pads_Y.
  - rewrite digits_value_zeros. apply py_str_value.
  - apply py_str_value.
Qed.

Lemma length_zeros_append k s : String.length (zeros k ++ s) = k + String.length s.
Proof. induction k as [|k IH]; simpl; auto. Qed.

Lemma py_str_length_le y : y < 10000 -> String.length (py_str y) <= 4.
Proof.
  intros Hy. apply Nat.leb_le.
  apply (forallb_seq_spec (fun k => String.length (py_str k) <=? 4) 0 10000);
    [vm_compute; reflexivity | lia].
Qed.

(** Where [%Y] is padded, a year below 10000 takes four characters. *)
Lemma strftime_Y_length y : y < 10000 -> String.length (strftime_Y true y) = 4.
Proof.
  intros Hy. unfold strftime_Y, zfill. rewrite length_zeros_append.
  pose proof (py_str_length_le y Hy). lia.
Qed.

Lemma string_app_assoc (a b c : string) : ((a ++ b) ++ c = a ++ b ++ c)%string.
Proof. induction a as [|x a IH]; simpl; [reflexivity|]. rewrite IH. reflexivity. Qed.

End FmtFacts.
Module AdapterFacts.
Import Engine Adapter Predicates.

Lemma bind_ok {A B} (m : M A) (k : A -> M B) w w' a :
  m w = (w', Ok a) -> bind m k w = k a w'.
Proof. intros H. unfold bind. rewrite H. reflexivity. Qed.

Lemma bind_exc {A B} (m : M A) (k : A -> M B) w w' e :
  m w = (w', Exc e) -> bind m k w = (w', Exc e).
Proof. intros H. unfold bind. rewrite H. reflexivity. Qed.

Lemma nth_error_update_nth {A} (f : A -> A) l h i :
  nth_error (update_nth h f l) i =
  if Nat.eqb i h then option_map f (nth_error l i) else nth_error l i.
Proof.
  revert h i. induction l as [|x l IH]; intros h i.
  - destruct h as [|h]; simpl; destruct (Nat.eqb i _), i; reflexivity.
  - destruct h as [|h], i as [|i]; simpl; try reflexivity.
    apply IH.
Qed.

Lemma nth_error_snoc {A} (l : list A) x :
  nth_error (l ++ [x])%list (List.length l) = Some x.
Proof. rewrite nth_error_app2 by lia. rewrite Nat.sub_diag. reflexivity. Qed.

(** A statement the engine accepts leaves the adapter's handle as it was,
    keeps connection [h] open and installs the new catalog. *)
Lemma exec_ok w h st c ts fs tx df :
  nth_error (conns w) h = Some c -> c_open c = true ->
  run_stmt w c st = Ok (ts, fs, tx, df) ->
  exists w', exec h st w = (w', Ok df) /\ a_conn w' = a_conn w /\ conn_open w' h
             /\ tables w' = ts /\ files w' = fs.
Proof.
  intros Hc Ho Hr. unfold exec. rewrite Hc, Ho, Hr.
  eexists; repeat split.
  exists (mkconn true tx (c_log c ++ [st])%list). split; [|reflexivity].
  simpl. rewrite nth_error_update_nth, Nat.eqb_refl, Hc. reflexivity.
Qed.

Lemma ensure_connected_ok self w :
  healthy self w ->
  exists h w', ensure_connected self w = (w', Ok tt) /\ a_conn w' = Some h
               /\ conn_open w' h /\ tables w' = tables w.
Proof.
  unfold healthy, ensure_connected, bind, get, ret.
  destruct (a_conn w) as [h|] eqn:Ha.
  - intros Hh. exists h, w. auto.
  - intros (Hopen & Hm & Ht).
    unfold connect, bind, get, ret, open_conn, modify. rewrite Ha, Hopen.
    set (w1 := set_a_conn (set_conns w (conns w ++ [mkconn true None []])%list)
                 (Some (List.length (conns w)))).
    assert (Hc1 : nth_error (conns w1) (List.length (conns w)) = Some (mkconn true None [])).
    { apply nth_error_snoc. }
    destruct (exec_ok w1 (List.length (conns w)) (SSet "memory_limit"
                ("'" ++ pyval_str (memory_limit self) ++ "'")) _ (tables w1) (files w1)
                None [] Hc1 eq_refl)
      as (w2 & Hx2 & Ha2 & (c2 & Hc2 & Ho2) & Ht2 & _).
    { cbv beta iota zeta delta [run_stmt]. change (set_ok w1) with (set_ok w).
      rewrite Hm. reflexivity. }
    rewrite Hx2.
    destruct (exec_ok w2 (List.length (conns w)) (SSet "threads" (pyval_str (threads self)))
                c2 (tables w2) (files w2) (c_txn c2) [] Hc2 Ho2)
      as (w3 & Hx3 & Ha3 & Hop3 & Ht3 & _).
    { cbv beta iota zeta delta [run_stmt].
      replace (set_ok w2) with (set_ok w). { rewrite Ht. reflexivity. }
      revert Hx2. unfold exec. rewrite Hc1. cbv beta iota zeta delta [run_stmt].
      change (set_ok w1) with (set_ok w). rewrite Hm. simpl. intros [= <-]. reflexivity. }
    rewrite Hx3.
    exists (List.length (conns w)), w3. repeat split; auto.
    + rewrite Ha3, Ha2. reflexivity.
    + rewrite Ht3, Ht2. reflexivity.
Qed.

Lemma healthy_connected self w h :
  a_conn w = Some h -> conn_open w h -> healthy self w.
Proof. intros Ha Ho. unfold healthy. rewrite Ha. exact Ho. Qed.

Lemma count_named_tables ts n :
  match List.length (filter (table_names_eq n) ts) with 0 => false | S _ => true end =
  match lookup_table ts n with Some _ => true | None => false end.
Proof.
  unfold lookup_table. induction ts as [|e ts IH]; simpl; [reflexivity|].
  destruct (table_names_eq n e); simpl; [reflexivity | exact IH].
Qed.

(** [conn_execute] on the held, open connection. *)
Lemma conn_execute_ok w h st c ts fs tx df :
  a_conn w = Some h -> nth_error (conns w) h = Some c -> c_open c = true ->
  run_stmt w c st = Ok (ts, fs, tx, df) ->
  exists w', conn_execute st w = (w', Ok df) /\ a_conn w' = Some h /\ conn_open w' h
             /\ tables w' = ts /\ files w' = fs.
Proof.
  intros Ha Hc Ho Hr. unfold conn_execute, bind, get. rewrite Ha.
  destruct (exec_ok w h st c ts fs tx df Hc Ho Hr) as (w' & Hx & Ha' & Ho' & Ht' & Hf').
  exists w'. rewrite Hx, Ha', Ha. auto.
Qed.

Lemma conn_execute_fail w h st c e :
  a_conn w = Some h -> nth_error (conns w) h = Some c -> c_open c = true ->
  run_stmt w c st = Exc e -> conn_execute st w = (w, Exc e).
Proof.
  intros Ha Hc Ho Hr. unfold conn_execute, bind, get. rewrite Ha.
  unfold exec. rewrite Hc, Ho, Hr. reflexivity.
Qed.

(** [table_exists] reads the catalog and changes nothing in it. *)
Lemma table_exists_ok self w n :
  healthy self w ->
  exists h w', table_exists self n w = (w', Ok (match lookup_table (tables w) n with
                                                 | Some _ => true | None => false end))
               /\ a_conn w' = Some h /\ conn_open w' h /\ tables w' = tables w.
Proof.
  intros Hh.
  destruct (ensure_connected_ok self w Hh) as (h & w1 & He & Ha1 & (c1 & Hc1 & Ho1) & Ht1).
  destruct (conn_execute_ok w1 h (SCountTablesNamed n) c1 (tables w1) (files w1) (c_txn c1)
              [count_row (List.length (filter (table_names_eq n) (tables w1)))]
              Ha1 Hc1 Ho1 eq_refl) as (w2 & Hx2 & Ha2 & Ho2 & Ht2 & _).
  exists h, w2.
  unfold table_exists, fetch_one, execute, bind at 1. unfold bind at 1.
  unfold bind at 1. rewrite He. rewrite Hx2. cbn.
  rewrite count_named_tables, Ht1. repeat split; auto. rewrite Ht2; exact Ht1.
Qed.

(** [exec] never touches the adapter's handle. *)
Lemma exec_a_conn h st w : a_conn (fst (exec h st w)) = a_conn w.
Proof.
  unfold exec. destruct (nth_error (conns w) h) as [c|]; [|reflexivity].
  destruct (c_open c); [|reflexivity].
  destruct (run_stmt w c st) as [[[[ts fs] tx] df]|e]; reflexivity.
Qed.

Lemma connect_a_conn self w w' h :
  connect self w = (w', Ok h) -> a_conn w' = Some h.
Proof.
  unfold connect, bind, get, ret. destruct (a_conn w) as [h0|] eqn:Ha.
  - intros [= <- <-]. exact Ha.
  - unfold open_conn. destruct (can_open w); [|discriminate].
    unfold modify.
    set (w1 := set_a_conn _ _).
    assert (Ha1 : a_conn w1 = Some (List.length (conns w))) by reflexivity.
    pose proof (exec_a_conn (List.length (conns w))
                  (SSet "memory_limit" ("'" ++ pyval_str (memory_limit self) ++ "'")) w1) as E1.
    destruct (exec _ _ w1) as [w2 [x|e]]; [|discriminate].
    pose proof (exec_a_conn (List.length (conns w)) (SSet "threads" (pyval_str (threads self))) w2)
      as E2.
    destruct (exec _ _ w2) as [w3 [y|e]]; [|discriminate].
    intros [= <- <-]. simpl in E1, E2. rewrite E2, E1. exact Ha1.
Qed.

(** [__enter__] hands out the engine connection held by the adapter. *)
Lemma enter_returns_conn self w w' o :
  __enter__ self w = (w', Ok o) -> exists h, o = OConn h /\ a_conn w' = Some h.
Proof.
  unfold __enter__, bind. destruct (connect self w) as [w1 [h|e]] eqn:Hc; [|discriminate].
  intros [= <- <-]. exists h. split; [reflexivity|]. exact (connect_a_conn _ _ _ _ Hc).
Qed.

(** A [with] block whose body calls [fetch_df(query)] on the bound value
    never returns rows: the bound value is the engine connection. *)
Lemma with_conn_fetch_df_raises self st w :
  exists e, snd (with_ self (fun conn => call_fetch_df conn st) w) = Exc e.
Proof.
  unfold with_, bind at 1.
  destruct (__enter__ self w) as [w1 [o|e]] eqn:He; [|exists e; reflexivity].
  destruct (enter_returns_conn self w w1 o He) as (h & -> & _).
  unfold bind, catch. simpl.
  destruct (__exit__ self (Some TypeError) w1) as [w2 [[]|e']].
  - exists TypeError. reflexivity.
  - exists e'. reflexivity.
Qed.

End AdapterFacts.
(** ** The adapter holds at most one engine connection *)

Module ConnInvariant.
Import Engine Adapter Predicates AdapterFacts.

Lemma preserves_ret {A} (a : A) : preserves (ret a).
Proof. intros w H. exact H. Qed.

Lemma preserves_raise {A} e : preserves (@raise A e).
Proof. intros w H. exact H. Qed.

Lemma preserves_get : preserves get.
Proof. intros w H. exact H. Qed.

Lemma preserves_bind {A B} (m : M A) (k : A -> M B) :
  preserves m -> (forall a, preserves (k a)) -> preserves (bind m k).
Proof.
  intros Hm Hk w Hw. unfold bind.
  specialize (Hm w Hw). destruct (m w) as [w' [a|e]]; simpl in *; auto.
  apply Hk. exact Hm.
Qed.

Lemma preserves_catch {A} (m : M A) : preserves m -> preserves (catch m).
Proof. intros Hm w Hw. unfold catch. specialize (Hm w Hw). destruct (m w); exact Hm. Qed.

Lemma preserves_exec h st : preserves (exec h st).
Proof.
  intros w Hw. unfold exec.
  destruct (nth_error (conns w) h) as [c|] eqn:Hc; [|exact Hw].
  destruct (c_open c) eqn:Ho; [|exact Hw].
  destruct (run_stmt w c st) as [[[[ts fs] tx] df]|e]; [|exact Hw].
  intros i c' Hi Ho'. simpl in *.
  rewrite nth_error_update_nth in Hi.
  destruct (Nat.eqb_spec i h) as [->|Hne].
  - exact (Hw h c Hc Ho).
  - exact (Hw i c' Hi Ho').
Qed.

Lemma preserves_connect self : preserves (connect self).
Proof.
  intros w Hw. unfold connect, bind at 1, get.
  destruct (a_conn w) as [h|] eqn:Ha; [exact Hw|].
  unfold bind at 1, open_conn.
  destruct (can_open w); [|exact Hw].
  unfold bind at 1, modify.
  set (n := List.length (conns w)).
  set (w1 := set_a_conn (set_conns w (conns w ++ [mkconn true None []])%list) (Some n)).
  assert (Hw1 : inv w1).
  { intros i c Hi Ho. simpl in *.
    destruct (Nat.lt_ge_cases i n) as [Hlt|Hge].
    - rewrite nth_error_app1 in Hi by exact Hlt.
      rewrite (Hw i c Hi Ho) in Ha. discriminate.
    - rewrite nth_error_app2 in Hi by exact Hge.
      destruct (Nat.eq_dec i n) as [->|Hne]; [reflexivity|].
      rewrite (proj2 (nth_error_None _ _)) in Hi; [discriminate|simpl; lia]. }
  change (inv (fst ((exec n (SSet "memory_limit" ("'" ++ pyval_str (memory_limit self) ++ "'")) ;;;
                     exec n (SSet "threads" (pyval_str (threads self))) ;;; ret n) w1))).
  revert Hw1. generalize w1.
  apply preserves_bind; [apply preserves_exec|intros _].
  apply preserves_bind; [apply preserves_exec|intros _].
  apply preserves_ret.
Qed.

Lemma preserves_close self : preserves (close self).
Proof.
  intros w Hw. unfold close, bind at 1, get.
  destruct (a_conn w) as [h|] eqn:Ha; [|exact Hw].
  unfold bind, close_conn, modify.
  destruct (nth_error (conns w) h) as [c|] eqn:Hc.
  - intros i c' Hi Ho. simpl in *.
    rewrite nth_error_update_nth in Hi.
    destruct (Nat.eqb_spec i h) as [->|Hne].
    + rewrite Hc in Hi. injection Hi as <-. discriminate.
    + rewrite (Hw i c' Hi Ho) in Ha. injection Ha as ->. contradiction.
  - intros i c' Hi Ho. simpl in *.
    rewrite (Hw i c' Hi Ho) in Ha. injection Ha as ->. rewrite Hc in Hi. discriminate.
Qed.

Ltac preserves_step :=
  match goal with
  | |- preserves (bind _ _) => apply preserves_bind; [|intro]
  | |- preserves ((fun _ => _) _) => cbv beta
  | |- preserves (ret _) => apply preserves_ret
  | |- preserves (raise _) => apply preserves_raise
  | |- preserves get => apply preserves_get
  | |- preserves (catch _) => apply preserves_catch
  | |- preserves (exec _ _) => apply preserves_exec
  | |- preserves (connect _) => apply preserves_connect
  | |- preserves (close _) => apply preserves_close
  | |- preserves (match ?x with _ => _ end) => destruct x
  | |- preserves (if ?b then _ else _) => destruct b
  end.

Ltac preserves_tac :=
  repeat (preserves_step || unfold ensure_connected, conn_execute, execute, execute_many,
                             fetch_one, fetch_all, fetch_df, table_exists, rollback).

Lemma preserves_execute_each sts : preserves (execute_each sts).
Proof. induction sts; simpl; preserves_tac; assumption. Qed.

Lemma preserves_run_op self o : preserves (run_op self o).
Proof.
  destruct o; unfold run_op, create_table_from_df, create_table_from_parquet,
    export_to_parquet, get_table_info, commit, rollback, vacuum, __enter__, __exit__;
    preserves_tac; try apply preserves_execute_each.
Qed.

(** Under the invariant, at most one engine connection is open. *)
Lemma inv_at_most_one_open w : inv w -> List.length (filter c_open (conns w)) <= 1.
Proof.
  unfold inv. generalize (a_conn w). generalize (conns w). clear w.
  intros l. induction l as [|c l IH]; intros k Hk; simpl; [lia|].
  destruct (c_open c) eqn:Ho; simpl.
  - assert (Hrest : filter c_open l = []).
    { destruct (filter c_open l) as [|c' l'] eqn:Hf; [reflexivity|].
      assert (Hin : In c' (filter c_open l)) by (rewrite Hf; left; reflexivity).
      apply filter_In in Hin as [Hin Hc'].
      apply In_nth_error in Hin as [i Hi].
      pose proof (Hk 0 c eq_refl Ho) as E0.
      pose proof (Hk (S i) c' Hi Hc') as E1.
      rewrite E0 in E1. discriminate. }
    rewrite Hrest. simpl. lia.
  - apply (IH (match k with Some (S i) => Some i | _ => None end)).
    intros i c' Hi Ho'. rewrite (Hk (S i) c' Hi Ho'). reflexivity.
Qed.

Lemma preserves_run_ops self ops : preserves (run_ops self ops).
Proof.
  induction ops as [|o ops IH]; simpl.
  - apply preserves_ret.
  - apply preserves_bind; [apply preserves_catch, preserves_run_op | intros _; exact IH].
Qed.

Lemma inv_no_conns w : conns w = [] -> inv w.
Proof. intros Hc i c. rewrite Hc. destruct i; discriminate. Qed.

End ConnInvariant.
Module LoaderFacts.

Lemma path_eqb_refl p : path_eqb p p = true.
Proof.
  unfold path_eqb. rewrite Nat.eqb_refl. simpl.
  induction p as [|a p IH]; simpl; [reflexivity|]. rewrite String.eqb_refl. exact IH.
Qed.

(** A file just written is read back. *)
Lemma read_write fs p df : read_file (write_file fs p df) p = Some df.
Proof.
  unfold read_file, write_file. induction fs as [|[q d] fs IH]; simpl.
  - rewrite path_eqb_refl. reflexivity.
  - destruct (path_eqb q p) eqn:E; simpl; [exact IH|]. rewrite E. exact IH.
Qed.

Lemma exists_write fs p df : exists_ (write_file fs p df) p = true.
Proof.
  unfold exists_, write_file. rewrite existsb_app. simpl.
  rewrite path_eqb_refl, orb_true_r. reflexivity.
Qed.

Lemma days_in_month_le y m : Date.days_in_month y m <= 31.
Proof.
  unfold Date.days_in_month.
  do 13 (destruct m as [|m]; [try destruct (Date.is_leap y); lia|]). lia.
Qed.

Lemma valid_bounds d :
  Date.valid d = true ->
  1 <= Date.year d < 100 * 100 /\ 1 <= Date.month d <= 12 /\ 1 <= Date.day d <= 31.
Proof.
  unfold Date.valid. intros H.
  repeat rewrite andb_true_iff in H. rewrite !Nat.leb_le in H.
  change 9999 with (100 * 100 - 1) in H.
  pose proof (days_in_month_le (Date.year d) (Date.month d)). lia.
Qed.

(** The loader module stops at its last import. *)
Lemma import_ParquetLoader_fails : Loader.import_ParquetLoader = Exc ModuleNotFoundError.
Proof. reflexivity. Qed.

(** The file name the legacy discovery looks for is never the file name
    a loader writes, whatever its base and the platform's [%Y]: they
    already differ in their fourth character. *)
Lemma raw_file_ne_loader_file pads_Y self d d' :
  Config.get_raw_file_path pads_Y d <> Loader.output_path pads_Y self d'.
Proof.
  unfold Config.get_raw_file_path, Loader.output_path. cbv zeta. intros H.
  apply (f_equal (fun p => List.last p "")) in H. rewrite !last_last in H.
  unfold Loader.output_filename in H. cbn [String.append] in H. discriminate H.
Qed.

(** Every path the discovery loop collects is a [get_raw_file_path]. *)
Lemma range_loop_raw_paths pads_Y fuel fs cur end_ acc res :
  Config.range_loop pads_Y fuel fs cur end_ acc = Ok res ->
  (forall p, In p acc -> exists d, p = Config.get_raw_file_path pads_Y d) ->
  forall p, In p res -> exists d, p = Config.get_raw_file_path pads_Y d.
Proof.
  revert cur acc. induction fuel as [|fuel IH]; intros cur acc; simpl.
  - intros [= <-]. auto.
  - destruct (Date.le cur end_); [|intros [= <-]; auto].
    destruct (Date.next_day cur) as [next|]; [|discriminate].
    intros Hr Hacc. apply (IH next _ Hr).
    intros p Hp. destruct (exists_ fs (Config.get_raw_file_path pads_Y cur)); [|auto].
    apply in_app_or in Hp as [Hp|[<-|[]]]; [auto|]. exists cur. reflexivity.
Qed.

Lemma date_le_refl d : Date.le d d = true.
Proof.
  unfold Date.le. rewrite Nat.ltb_irrefl, !Nat.eqb_refl, Nat.ltb_irrefl, Nat.leb_refl. reflexivity.
Qed.

Lemma discovery_one_day pads_Y fs d :
  Config.list_raw_files_in_range pads_Y fs d d =
  match Date.next_day d with
  | None => Exc OverflowError
  | Some _ => Ok (if exists_ fs (Config.get_raw_file_path pads_Y d)
                  then [Config.get_raw_file_path pads_Y d] else [])
  end.
Proof.
  unfold Config.list_raw_files_in_range. rewrite Nat.sub_diag. cbn [Config.range_loop].
  rewrite date_le_refl. destruct (Date.next_day d); [|reflexivity].
  destruct (exists_ fs _); reflexivity.
Qed.

Lemma discovery_empty pads_Y fs s e :
  Date.le s e = false -> Config.list_raw_files_in_range pads_Y fs s e = Ok [].
Proof. intros H. unfold Config.list_raw_files_in_range. cbn [Config.range_loop]. rewrite H. reflexivity. Qed.

End LoaderFacts.

(** ** [str.lower] against case-folding, on the name [duckdb] *)

Module UnicodeFacts.
Import PyStr SpecText.
Local Open Scope N_scope.

Definition duckdb_cps : list N := [100; 117; 99; 107; 100; 98].

(** The letters of [duckdb]. *)
Definition letters : list N := [100; 117; 99; 107; 98].

Lemma decode_duckdb : decode "duckdb" = Some duckdb_cps.
Proof. reflexivity. Qed.

Lemma casefold_duckdb : casefold_cps duckdb_cps = duckdb_cps.
Proof. vm_compute. reflexivity. Qed.

Lemma cps_eqb_eq a b : cps_eqb a b = true <-> a = b.
Proof.
  revert b. induction a as [|x a IH]; intros [|y b]; simpl; split; intros H;
    try discriminate; try reflexivity.
  - apply andb_prop in H as [H1 H2]. apply N.eqb_eq in H1. apply IH in H2. subst. reflexivity.
  - injection H as -> ->. rewrite N.eqb_refl. apply IH. reflexivity.
Qed.

(** *** Which code points map to a single letter of [duckdb] *)

(** Every run maps its code points to non-negative values. *)
Definition runs_ok (rs : list run) : bool :=
  forallb (fun r => (0 <=? Z.of_N (r_lo r) + r_delta r)%Z) rs.

(** The code points a simple mapping may send to [t]: [t] itself, and for
    each run the value [t - delta]. *)
Definition single_cands (rs : list run) (t : N) : list N :=
  t :: map (fun r => Z.to_N (Z.of_N t - r_delta r)) rs.

Definition cands (single : list run) (multi : list (N * list N)) (t : N) : list N :=
  single_cands single t ++ map fst multi.

Lemma map_single_cands rs c t :
  runs_ok rs = true -> map_single rs c = t -> In c (single_cands rs t).
Proof.
  induction rs as [|r rs IH]; simpl; intros Hok H.
  - left. symmetry. exact H.
  - apply andb_prop in Hok as [Hr Hok]. apply Z.leb_le in Hr.
    destruct (in_run r c) eqn:E.
    + right. left. unfold in_run in E.
      apply andb_prop in E as [E _]. apply andb_prop in E as [Hlo _]. apply N.leb_le in Hlo.
      assert (0 <= Z.of_N c + r_delta r)%Z by (apply N2Z.inj_le in Hlo; lia).
      rewrite <- H. rewrite Z2N.id by lia.
      replace (Z.of_N c + r_delta r - r_delta r)%Z with (Z.of_N c) by lia. apply N2Z.id.
    + destruct (IH Hok H) as [Ht|Hin]; [left; exact Ht|right; right; exact Hin].
Qed.

Lemma assoc_in m c v : assoc m c = Some v -> In (c, v) m.
Proof.
  induction m as [|[k w] m IH]; simpl; [discriminate|].
  destruct (N.eqb_spec k c) as [->|_]; [intros [= ->]; left; reflexivity|].
  intros H. right. exact (IH H).
Qed.

Lemma case_map_cands single multi c t :
  runs_ok single = true -> case_map single multi c = [t] -> In c (cands single multi t).
Proof.
  unfold case_map, cands. intros Hok. destruct (assoc multi c) as [v|] eqn:A.
  - intros _. apply in_or_app. right. apply (in_map fst _ (c, v)). exact (assoc_in _ _ _ A).
  - intros [= H]. apply in_or_app. left. exact (map_single_cands _ _ _ Hok H).
Qed.

(** The two mappings agree on whether [c] goes to [[t]]. *)
Definition same_on (t : N) (cs : list N) : bool :=
  forallb (fun c => Bool.eqb (cps_eqb (case_map lower_single lower_multi c) [t])
                             (cps_eqb (case_map casefold_single casefold_multi c) [t])) cs.

Lemma same_on_letters t :
  In t letters ->
  same_on t (cands lower_single lower_multi t ++ cands casefold_single casefold_multi t) = true.
Proof.
  intros [<-|[<-|[<-|[<-|[<-|[]]]]]]; vm_compute; reflexivity.
Qed.

(** A code point lowers to a single letter of [duckdb] exactly when it
    case-folds to that letter. *)
Lemma lower_casefold_single t c :
  In t letters ->
  case_map lower_single lower_multi c = [t] <-> case_map casefold_single casefold_multi c = [t].
Proof.
  intros Ht.
  assert (Hok1 : runs_ok lower_single = true) by (vm_compute; reflexivity).
  assert (Hok2 : runs_ok casefold_single = true) by (vm_compute; reflexivity).
  assert (Hsame : forall c, In c (cands lower_single lower_multi t
                                  ++ cands casefold_single casefold_multi t) ->
            cps_eqb (case_map lower_single lower_multi c) [t]
            = cps_eqb (case_map casefold_single casefold_multi c) [t]).
  { intros c' Hc'. apply Bool.eqb_prop.
    pose proof (same_on_letters t Ht) as H. unfold same_on in H.
    rewrite forallb_forall in H. exact (H c' Hc'). }
  split; intros H.
  - pose proof (Hsame c (in_or_app _ _ _ (or_introl (case_map_cands _ _ _ _ Hok1 H)))) as E.
    apply cps_eqb_eq. rewrite <- E. apply cps_eqb_eq. exact H.
  - pose proof (Hsame c (in_or_app _ _ _ (or_intror (case_map_cands _ _ _ _ Hok2 H)))) as E.
    apply cps_eqb_eq. rewrite E. apply cps_eqb_eq. exact H.
Qed.

(** *** The special cases with several code points *)

(** Every special case yields at least one code point, and when it yields
    several the first is no letter of [duckdb]. *)
Definition multi_ok (m : list (N * list N)) : bool :=
  forallb (fun kv => match snd kv with
                     | [] => false
                     | [_] => true
                     | x :: _ => negb (existsb (N.eqb x) letters)
                     end) m.

Lemma case_map_nonempty single multi c :
  multi_ok multi = true -> case_map single multi c <> [].
Proof.
  unfold case_map, multi_ok. intros Hm. destruct (assoc multi c) as [v|] eqn:A; [|discriminate].
  rewrite forallb_forall in Hm. specialize (Hm _ (assoc_in _ _ _ A)). simpl in Hm.
  destruct v; [discriminate|discriminate].
Qed.

Lemma case_map_head single multi c x y r :
  multi_ok multi = true -> case_map single multi c = x :: y :: r -> ~ In x letters.
Proof.
  unfold case_map, multi_ok. intros Hm. destruct (assoc multi c) as [v|] eqn:A; [|discriminate].
  intros ->. rewrite forallb_forall in Hm. specialize (Hm _ (assoc_in _ _ _ A)). cbn [snd] in Hm.
  intros Hx. apply negb_true_iff in Hm.
  assert (Hex : existsb (N.eqb x) letters = true)
    by (apply existsb_exists; exists x; split; [exact Hx|apply N.eqb_refl]).
  congruence.
Qed.

(** *** Lowering and case-folding to a text made of [duckdb]'s letters *)

Lemma app_target_dir (a b ra rb target : list N) :
  Forall (fun x => In x letters) target ->
  (forall x y r, a = x :: y :: r -> ~ In x letters) ->
  a <> [] ->
  (forall t, In t letters -> a = [t] -> b = [t]) ->
  (forall tg, Forall (fun x => In x letters) tg -> ra = tg -> rb = tg) ->
  (a ++ ra = target -> b ++ rb = target)%list.
Proof.
  intros Ht Hhead Hne Hsingle Hrest H.
  destruct target as [|t tg]; [destruct a; [contradiction Hne; reflexivity|discriminate]|].
  inversion Ht as [|? ? Ht1 Htg]; subst.
  destruct a as [|x [|y r]]; [contradiction Hne; reflexivity| |].
  - injection H as -> Hra. rewrite (Hsingle t Ht1 eq_refl). simpl. f_equal. exact (Hrest tg Htg Hra).
  - injection H as -> _. contradiction (Hhead t y r eq_refl).
Qed.

Lemma letters_not_sigma t : In t letters -> t <> 962 /\ t <> 963.
Proof.
  intros Ht. repeat (destruct Ht as [<-|Ht]; [split; discriminate|]). destruct Ht.
Qed.

Lemma lower_char_single before c after t :
  In t letters ->
  lower_char before c after = [t] <-> case_map casefold_single casefold_multi c = [t].
Proof.
  intros Hlt. unfold lower_char. destruct (N.eqb_spec c 931) as [->|Hc].
  - destruct (letters_not_sigma t Hlt) as [H1 H2].
    replace (case_map casefold_single casefold_multi 931) with [963] by (vm_compute; reflexivity).
    split; intros H; [|injection H as H; congruence].
    destruct (final_sigma before after); injection H as H; congruence.
  - apply lower_casefold_single. exact Hlt.
Qed.

Lemma lower_char_nonempty before c after : lower_char before c after <> [].
Proof.
  unfold lower_char. destruct (c =? 931); [discriminate|].
  apply case_map_nonempty. vm_compute. reflexivity.
Qed.

Lemma lower_char_head before c after x y r :
  lower_char before c after = x :: y :: r -> ~ In x letters.
Proof.
  unfold lower_char. destruct (c =? 931); [discriminate|].
  apply case_map_head. vm_compute. reflexivity.
Qed.

Lemma lower_go_target before l target :
  Forall (fun x => In x letters) target ->
  lower_go before l = target <-> casefold_cps l = target.
Proof.
  assert (Hm2 : multi_ok casefold_multi = true) by (vm_compute; reflexivity).
  revert before target. induction l as [|c l IH]; intros before target Ht.
  - simpl. split; auto.
  - cbn [lower_go]. unfold casefold_cps. cbn [flat_map]. fold (casefold_cps l).
    split; apply app_target_dir.
    + exact Ht.
    + intros x y r H. exact (lower_char_head before c l x y r H).
    + apply lower_char_nonempty.
    + intros t Hlt. apply (lower_char_single before c l t Hlt).
    + intros tg Htg. apply (IH (c :: before) tg Htg).
    + exact Ht.
    + intros x y r H. exact (case_map_head _ _ c x y r Hm2 H).
    + apply case_map_nonempty. exact Hm2.
    + intros t Hlt. apply (lower_char_single before c l t Hlt).
    + intros tg Htg. apply (IH (c :: before) tg Htg).
Qed.

(** *** Encoding back to bytes *)

Lemma enc1_ascii c : c < 128 -> enc1 c = [c].
Proof. intros Hc. unfold enc1. apply N.ltb_lt in Hc. rewrite Hc. reflexivity. Qed.

Lemma enc1_head c : 128 <= c -> exists b bs, enc1 c = b :: bs /\ 192 <= b < 256.
Proof.
  intros Hc. unfold enc1.
  destruct (N.ltb_spec c 128); [lia|].
  destruct (N.ltb_spec c 2048).
  { eexists; eexists; split; [reflexivity|].
    assert (c / 64 < 32) by (apply N.Div0.div_lt_upper_bound; lia).
    generalize dependent (c / 64). intros. lia. }
  destruct (N.ltb_spec c 65536).
  { eexists; eexists; split; [reflexivity|].
    assert (c / 4096 < 16) by (apply N.Div0.div_lt_upper_bound; lia).
    generalize dependent (c / 4096). intros. lia. }
  eexists; eexists; split; [reflexivity|].
  assert ((c / 262144) mod 8 < 8) by (apply N.mod_lt; discriminate).
  generalize dependent ((c / 262144) mod 8). intros. lia.
Qed.

Lemma enc1_nonempty c : enc1 c <> [].
Proof. unfold enc1. destruct (c <? 128), (c <? 2048), (c <? 65536); discriminate. Qed.

Lemma encode_ascii_inj x tl :
  Forall (fun t => t < 128) tl ->
  map ascii_of_N (flat_map enc1 x) = map ascii_of_N tl -> x = tl.
Proof.
  revert tl. induction x as [|c x IH]; intros tl Ht H.
  - destruct tl; [reflexivity|discriminate H].
  - cbn [flat_map] in H. rewrite map_app in H.
    destruct tl as [|t tl].
    { destruct (enc1 c) eqn:E; [contradiction (enc1_nonempty c E)|discriminate H]. }
    inversion Ht as [|? ? Ht1 Htl]; subst.
    destruct (N.lt_ge_cases c 128) as [Hc|Hc].
    + rewrite (enc1_ascii c Hc) in H. cbn in H. injection H as H1 H2.
      apply (f_equal N_of_ascii) in H1. rewrite !N_ascii_embedding in H1 by lia. subst t.
      f_equal. exact (IH tl Htl H2).
    + destruct (enc1_head c Hc) as (b & bs & E & Hb). rewrite E in H. cbn in H.
      injection H as H1 _.
      apply (f_equal N_of_ascii) in H1. rewrite !N_ascii_embedding in H1 by lia. lia.
Qed.

Lemma encode_eq_duckdb x : String.eqb (encode x) "duckdb" = cps_eqb x duckdb_cps.
Proof.
  destruct (String.eqb (encode x) "duckdb") eqn:E.
  - apply String.eqb_eq in E. symmetry. apply cps_eqb_eq.
    apply encode_ascii_inj; [repeat constructor|].
    apply (f_equal list_ascii_of_string) in E. unfold encode in E.
    rewrite list_ascii_of_string_of_list_ascii in E. exact E.
  - destruct (cps_eqb x duckdb_cps) eqn:F; [|reflexivity].
    apply cps_eqb_eq in F. subst x. vm_compute in E. discriminate E.
Qed.

(** [s.lower() == "duckdb"] exactly when [s] case-folds to [duckdb]. *)
Lemma lower_eq_duckdb s : String.eqb (lower s) "duckdb" = ci_equal s "duckdb".
Proof.
  unfold lower, on_text, ci_equal. rewrite decode_duckdb.
  destruct (decode s) as [cps|]; [|reflexivity].
  rewrite encode_eq_duckdb, casefold_duckdb.
  assert (Ht : Forall (fun x => In x letters) duckdb_cps) by (repeat constructor; simpl; auto 6).
  destruct (cps_eqb (lower_cps cps) duckdb_cps) eqn:E1,
           (cps_eqb (casefold_cps cps) duckdb_cps) eqn:E2; try reflexivity.
  - apply cps_eqb_eq in E1. apply (lower_go_target [] cps duckdb_cps Ht) in E1.
    apply cps_eqb_eq in E1. congruence.
  - apply cps_eqb_eq in E2. apply (lower_go_target [] cps duckdb_cps Ht) in E2.
    apply cps_eqb_eq in E2. unfold lower_cps in E1. congruence.
Qed.

End UnicodeFacts.

Module FactoryFacts.
Import Adapter.

(** [kwargs.get(key, default)] with [key] not passed is [default]. *)
Lemma kwargs_get_absent kwargs key default :
  (forall v, ~ In (key, v) kwargs) -> Factory.kwargs_get kwargs key default = default.
Proof.
  unfold Factory.kwargs_get. induction kwargs as [|[k v] kwargs IH]; intros H; simpl;
    [reflexivity|].
  destruct (String.eqb_spec k key) as [->|_].
  - exfalso. apply (H v). left. reflexivity.
  - apply IH. intros v' Hin. apply (H v'). right. exact Hin.
Qed.

End FactoryFacts.

(** ** The adapter's calls on a held connection *)

Module HeldFacts.
Import Engine Adapter Predicates AdapterFacts.

Lemma same_env_refl w : same_env w w.
Proof. repeat split. Qed.

Lemma same_env_trans w1 w2 w3 : same_env w1 w2 -> same_env w2 w3 -> same_env w1 w3.
Proof. unfold same_env. intuition congruence. Qed.

Lemma exec_held w h tx st ts fs tx' df :
  held w h tx -> (forall c, c_txn c = tx -> run_stmt w c st = Ok (ts, fs, tx', df)) ->
  exists w', exec h st w = (w', Ok df) /\ held w' h tx' /\ tables w' = ts /\ files w' = fs
             /\ same_env w w'.
Proof.
  intros [Ha (c & Hc & Ho & Ht)] Hr. unfold exec. rewrite Hc, Ho, (Hr c Ht).
  eexists; split; [reflexivity|]. split; [split; [exact Ha|]|].
  - exists (mkconn true tx' (c_log c ++ [st])%list). simpl.
    rewrite nth_error_update_nth, Nat.eqb_refl, Hc. auto.
  - repeat split.
Qed.

Lemma exec_held_exc w h tx st e :
  held w h tx -> (forall c, c_txn c = tx -> run_stmt w c st = Exc e) -> exec h st w = (w, Exc e).
Proof.
  intros [Ha (c & Hc & Ho & Ht)] Hr. unfold exec. rewrite Hc, Ho, (Hr c Ht). reflexivity.
Qed.

Lemma conn_execute_held w h st : a_conn w = Some h -> conn_execute st w = exec h st w.
Proof. intros Ha. unfold conn_execute, bind, get. rewrite Ha. reflexivity. Qed.

Lemma ensure_connected_held self w h : a_conn w = Some h -> ensure_connected self w = (w, Ok tt).
Proof. intros Ha. unfold ensure_connected, bind, get. rewrite Ha. reflexivity. Qed.

Lemma execute_held self w h st : a_conn w = Some h -> execute self st w = exec h st w.
Proof.
  intros Ha. unfold execute. rewrite (bind_ok _ _ _ _ _ (ensure_connected_held self w h Ha)).
  apply conn_execute_held. exact Ha.
Qed.

Lemma update_nth_snoc {A} (f : A -> A) l x :
  update_nth (List.length l) f (l ++ [x])%list = (l ++ [f x])%list.
Proof. induction l as [|y l IH]; simpl; [reflexivity|]. rewrite IH. reflexivity. Qed.

Lemma connect_fresh self w :
  a_conn w = None -> can_open w = true ->
  set_ok w "memory_limit" ("'" ++ pyval_str (memory_limit self) ++ "'") = true ->
  set_ok w "threads" (pyval_str (threads self)) = true ->
  connect self w =
  (mkworld (Some (List.length (conns w)))
     (conns w ++ [mkconn true None
                   [SSet "memory_limit" ("'" ++ pyval_str (memory_limit self) ++ "'");
                    SSet "threads" (pyval_str (threads self))]])%list
     (tables w) (files w) (can_open w) (set_ok w) (raw_sql w) (run_data w),
   Ok (List.length (conns w))).
Proof.
  intros Ha Ho H1 H2. unfold connect, bind, get, ret, modify, open_conn. rewrite Ha, Ho.
  simpl in H1. unfold exec. simpl. rewrite nth_error_snoc. simpl. rewrite H1.
  rewrite update_nth_snoc. simpl. rewrite nth_error_snoc. simpl. rewrite H2.
  rewrite update_nth_snoc. unfold set_conns, set_files, set_tables, set_a_conn. cbn. rewrite Ho. reflexivity.
Qed.

Lemma connect_fresh_held self w :
  a_conn w = None -> can_open w = true ->
  set_ok w "memory_limit" ("'" ++ pyval_str (memory_limit self) ++ "'") = true ->
  set_ok w "threads" (pyval_str (threads self)) = true ->
  exists w', connect self w = (w', Ok (List.length (conns w)))
             /\ held w' (List.length (conns w)) None /\ tables w' = tables w
             /\ files w' = files w /\ same_env w w'.
Proof.
  intros Ha Ho H1 H2. rewrite (connect_fresh self w Ha Ho H1 H2).
  eexists; split; [reflexivity|]. split; [split; [reflexivity|]|].
  - eexists; split; [apply nth_error_snoc|]. split; reflexivity.
  - repeat split.
Qed.

Lemma fetch_one_held self w h st :
  a_conn w = Some h ->
  fetch_one self st w = match exec h st w with
                        | (w', Ok df) => (w', Ok (hd_error df))
                        | (w', Exc e) => (w', Exc e)
                        end.
Proof.
  intros Ha. unfold fetch_one, bind at 1. rewrite (execute_held self w h st Ha).
  destruct (exec h st w) as [w' [df|e]]; reflexivity.
Qed.

Lemma table_exists_held self w h tx n :
  held w h tx ->
  exists w', table_exists self n w = (w', Ok (match lookup_table (tables w) n with
                                              | Some _ => true | None => false end))
             /\ held w' h tx /\ tables w' = tables w /\ files w' = files w /\ same_env w w'.
Proof.
  intros Hh.
  destruct (exec_held w h tx (SCountTablesNamed n) (tables w) (files w) tx
              [count_row (List.length (filter (table_names_eq n) (tables w)))] Hh)
    as (w1 & Hx & Hh1 & Ht1 & Hf1 & He1).
  { intros c <-. reflexivity. }
  exists w1. unfold table_exists. unfold bind at 1.
  rewrite (fetch_one_held self w h _ (proj1 Hh)), Hx. cbn.
  rewrite count_named_tables. auto.
Qed.

Lemma connect_held self w h : a_conn w = Some h -> connect self w = (w, Ok h).
Proof. intros Ha. unfold connect, bind, get. rewrite Ha. reflexivity. Qed.

Lemma connect_set_refused self w :
  a_conn w = None -> can_open w = true ->
  set_ok w "memory_limit" ("'" ++ pyval_str (memory_limit self) ++ "'") = false ->
  connect self w =
  (mkworld (Some (List.length (conns w))) (conns w ++ [mkconn true None []])%list
     (tables w) (files w) (can_open w) (set_ok w) (raw_sql w) (run_data w),
   Exc EngineError).
Proof.
  intros Ha Ho H1. simpl in H1. unfold connect, bind, get, ret, modify, open_conn. rewrite Ha, Ho.
  unfold exec. simpl. rewrite nth_error_snoc. simpl. rewrite H1.
  unfold set_conns, set_a_conn. cbn. rewrite Ho. reflexivity.
Qed.

Lemma close_none self w : a_conn w = None -> close self w = (w, Ok tt).
Proof. intros Ha. unfold close, bind, get. rewrite Ha. reflexivity. Qed.

Lemma close_held self w h tx :
  held w h tx ->
  exists c w', nth_error (conns w) h = Some c /\ c_txn c = tx
    /\ close self w = (w', Ok tt) /\ a_conn w' = None
    /\ nth_error (conns w') h = Some (mkconn false None (c_log c))
    /\ (forall i, i <> h -> nth_error (conns w') i = nth_error (conns w) i)
    /\ tables w' = match tx with Some saved => saved | None => tables w end
    /\ files w' = files w /\ same_env w w'.
Proof.
  intros [Ha (c & Hc & Ho & Ht)]. exists c.
  eexists. split; [exact Hc|]. split; [exact Ht|].
  split.
  { unfold close, bind, get. rewrite Ha. unfold close_conn. rewrite Hc. reflexivity. }
  simpl. split; [reflexivity|].
  split; [rewrite nth_error_update_nth, Nat.eqb_refl, Hc; reflexivity|].
  split; [intros i Hi; rewrite nth_error_update_nth; apply Nat.eqb_neq in Hi; rewrite Hi; reflexivity|].
  split; [rewrite Ht; reflexivity|]. split; [reflexivity|]. repeat split.
Qed.

Lemma commit_autocommit self w h : held w h None -> commit self w = (w, Ok tt).
Proof.
  intros [Ha (c & Hc & Ho & Ht)]. unfold commit, bind, get. rewrite Ha, Hc, Ht. reflexivity.
Qed.

Lemma rollback_autocommit self w h : held w h None -> rollback self w = (w, Exc TransactionException).
Proof.
  intros Hh. unfold rollback, bind at 1, get. rewrite (proj1 Hh).
  apply (bind_exc _ _ _ _ _ (exec_held_exc w h None SRollback TransactionException Hh
                                (fun c Hc => ltac:(cbv beta iota zeta delta [run_stmt]; rewrite Hc; reflexivity)))).
Qed.

(** A [with] block whose body calls [fetch_df] on the bound connection,
    entered in auto-commit mode: the body's [TypeError] is replaced by the
    [TransactionException] of the rollback, and the connection stays open. *)
Lemma with_conn_fetch_df_fresh self st w :
  a_conn w = None -> can_open w = true ->
  set_ok w "memory_limit" ("'" ++ pyval_str (memory_limit self) ++ "'") = true ->
  set_ok w "threads" (pyval_str (threads self)) = true ->
  exists w', with_ self (fun conn => call_fetch_df conn st) w = (w', Exc TransactionException)
             /\ held w' (List.length (conns w)) None /\ tables w' = tables w /\ files w' = files w.
Proof.
  intros Ha Ho H1 H2.
  destruct (connect_fresh_held self w Ha Ho H1 H2) as (w1 & Hc & Hh1 & Ht1 & Hf1 & _).
  exists w1. unfold with_, __enter__.
  rewrite (bind_ok _ _ _ _ _ (bind_ok _ _ _ _ _ Hc)).
  unfold bind at 1, catch. cbn [call_fetch_df raise].
  unfold __exit__. rewrite (bind_exc _ _ _ _ _ (bind_exc _ _ _ _ _ (rollback_autocommit self w1 _ Hh1))).
  auto.
Qed.

Lemma raw_held self w h tx q df :
  held w h tx -> raw_sql w q = Some df ->
  exists w', fetch_one self (SRaw q) w = (w', Ok (hd_error df)) /\ held w' h tx
             /\ tables w' = tables w /\ files w' = files w /\ same_env w w'.
Proof.
  intros Hh Hq.
  destruct (exec_held w h tx (SRaw q) (tables w) (files w) tx df Hh) as (w' & Hx & H').
  { intros c <-. cbv beta iota zeta delta [run_stmt]. rewrite Hq. reflexivity. }
  exists w'. rewrite (fetch_one_held self w h _ (proj1 Hh)), Hx. auto.
Qed.

Lemma same_env_raw w w' : same_env w w' -> raw_sql w' = raw_sql w.
Proof. intros (_ & _ & H & _). exact H. Qed.

Lemma get_default_database_eq : Factory.get_default_database = Ok Samples.a0.
Proof. reflexivity. Qed.

Lemma test_connection_runs w c1 cs1 rs1 c2 cs2 rs2 df3 :
  a_conn w = None -> can_open w = true ->
  set_ok w "memory_limit" "'4GB'" = true -> set_ok w "threads" "4" = true ->
  raw_sql w "SELECT 'Connection successful!' as message" = Some ((c1 :: cs1) :: rs1) ->
  raw_sql w "SELECT version()" = Some ((c2 :: cs2) :: rs2) ->
  raw_sql w "SELECT 1 as id, 'test' as name" = Some df3 ->
  exists w', Tests.test_connection w
             = (w', Ok (match lookup_table (tables w) "nonexistent_table" with
                        | Some _ => true | None => false end))
             /\ a_conn w' = None /\ tables w' = tables w
             /\ exists c, nth_error (conns w') (List.length (conns w)) = Some c /\ c_open c = false.
Proof.
  intros Ha Ho H1 H2 Hq1 Hq2 Hq3.
  unfold Tests.test_connection. rewrite get_default_database_eq. cbv iota.
  destruct (connect_fresh_held Samples.a0 w Ha Ho H1 H2) as (w1 & Hc & Hh1 & Ht1 & Hf1 & He1).
  destruct (raw_held Samples.a0 w1 _ _ _ _ Hh1
              ltac:(rewrite (same_env_raw _ _ He1); exact Hq1))
    as (w2 & Hr2 & Hh2 & Ht2 & _ & He2).
  destruct (raw_held Samples.a0 w2 _ _ _ _ Hh2
              ltac:(rewrite (same_env_raw _ _ (same_env_trans _ _ _ He1 He2)); exact Hq2))
    as (w3 & Hr3 & Hh3 & Ht3 & _ & He3).
  assert (He13 : same_env w w3) by eauto using same_env_trans.
  destruct (exec_held w3 _ None (SRaw "SELECT 1 as id, 'test' as name") (tables w3) (files w3) None df3 Hh3)
    as (w4 & Hx4 & Hh4 & Ht4 & _ & He4).
  { intros c <-. cbv beta iota zeta delta [run_stmt]. rewrite (same_env_raw _ _ He13), Hq3. reflexivity. }
  destruct (table_exists_held Samples.a0 w4 _ _ "nonexistent_table" Hh4) as (w5 & Hte & Hh5 & Ht5 & _).
  destruct (close_held Samples.a0 w5 _ _ Hh5) as (c5 & w6 & _ & _ & Hcl & Ha6 & Hc6 & _ & Ht6 & _).
  exists w6. unfold with_, __enter__.
  rewrite (bind_ok _ _ _ _ _ (bind_ok _ _ _ _ _ Hc)).
  unfold Tests.test_connection_body.
  unfold bind at 1, catch.
  rewrite (bind_ok _ _ _ _ _ Hr2). cbn [hd_error Tests.first_cell].
  rewrite (bind_ok _ _ _ _ _ (eq_refl : ret tt w2 = (w2, Ok tt))).
  rewrite (bind_ok _ _ _ _ _ Hr3). cbn [hd_error Tests.first_cell].
  rewrite (bind_ok _ _ _ _ _ (eq_refl : ret tt w3 = (w3, Ok tt))).
  unfold fetch_df at 1. rewrite (bind_ok _ _ _ _ _ (eq_trans (execute_held Samples.a0 w3 _ _ (proj1 Hh3)) Hx4)).
  rewrite Hte. unfold __exit__.
  rewrite (bind_ok _ _ _ _ _ (eq_trans (bind_ok _ _ _ _ _ (eq_refl : ret tt w5 = (w5, Ok tt))) Hcl)).
  assert (T : tables w4 = tables w) by congruence.
  rewrite T. split; [reflexivity|]. split; [exact Ha6|]. split; [congruence|].
  eexists; split; [exact Hc6|reflexivity].
Qed.

End HeldFacts.

(* ================================================================== *)
(** * The specification's claims *)

Module Claims.
Import Engine Adapter Samples Predicates SpecText FmtFacts AdapterFacts LoaderFacts ConnInvariant
  UnicodeFacts.

(** C1 (refuted): the Loader writes nothing, since its module cannot be
    imported ([config.file_utils] does not exist).  Were the import fixed,
    a loader would write [<base>/year=Y/month=MM/day=DD/
    case_history_YYYYMMDD.parquet] while the day-by-day discovery
    [list_raw_files_in_range] checks [<base>/Y/MM/DD/casos_rrhh_YYYYMMDD.parquet]:
    the two paths never coincide, whatever the loader's base and the
    platform's [%Y], and whatever the file system and the range, the file
    a loader writes for a date is present on disk but never among the files
    the discovery returns. *)
Theorem C1_discovery_misses_loader_layout :
  Loader.import_ParquetLoader = Exc ModuleNotFoundError
  /\ (forall pads_Y self d d',
        Config.get_raw_file_path pads_Y d <> Loader.output_path pads_Y self d')
  /\ (forall pads_Y self cwd fs df d,
        exists_ (fst (Loader._save_to_parquet pads_Y self cwd fs df d))
                (Loader.output_path pads_Y self d) = true)
  /\ (forall pads_Y self fs start_date end_date d files,
        Config.list_raw_files_in_range pads_Y fs start_date end_date = Ok files ->
        ~ In (Loader.output_path pads_Y self d) files).
Proof.
  split; [exact import_ParquetLoader_fails|].
  split; [intros; apply raw_file_ne_loader_file|].
  split.
  - intros pads_Y self cwd fs df d. unfold Loader._save_to_parquet. cbv zeta.
    destruct (relative_to _ cwd); apply exists_write.
  - intros pads_Y self fs s e d files Hr Hin.
    destruct (range_loop_raw_paths _ _ _ _ _ _ _ Hr (fun p (H : In p []) => match H with end)
                _ Hin) as [d' Hd'].
    exact (raw_file_ne_loader_file pads_Y self d' d (eq_sym Hd')).
Qed.

Lemma C1_witness :
  let fs' := fst (Loader._save_to_parquet true layout cwd0 [] sample_df feb11) in
  exists_ fs' feb11_file = true
  /\ Config.list_raw_files_in_range true fs' feb11 feb11 = Ok []
  /\ ~ In feb11_file [].
Proof.
  cbv zeta.
  destruct C1_discovery_misses_loader_layout as (_ & _ & Hsave & Hdisc).
  split; [exact (Hsave true layout cwd0 [] sample_df feb11)|].
  split; [vm_compute; reflexivity|].
  apply (Hdisc true layout (fst (Loader._save_to_parquet true layout cwd0 [] sample_df feb11))
           feb11 feb11 feb11 []).
  vm_compute. reflexivity.
Defined.

(** C2 (refuted): the Loader computes no path, since its module cannot be
    imported.  Were the import fixed, for a valid date D a loader's
    partition directory would be [<base>/year=<str(D.year)>/month=<MM>/day=<DD>],
    [MM] and [DD] two decimal digits reading back as D's month and day, and
    the file it writes there [case_history_<strftime('%Y')><MM><DD>.parquet];
    [strftime('%Y')] reads back as D's year but has four digits only on a
    platform that pads it: where it does not, the year 5 gives
    [case_history_50102.parquet]. *)
Theorem C2_loader_layout :
  Loader.import_ParquetLoader = Exc ModuleNotFoundError
  /\ (forall pads_Y self cwd fs df d,
        Date.valid d = true ->
        exists mm dd,
          Loader._get_hive_partition_path self d =
            (Loader.base_path self ++ [("year=" ++ py_str (Date.year d))%string;
                                       ("month=" ++ mm)%string; ("day=" ++ dd)%string])%list
          /\ String.length mm = 2 /\ digits_value mm = Some (Date.month d)
          /\ String.length dd = 2 /\ digits_value dd = Some (Date.day d)
          /\ Loader.output_filename pads_Y d
             = ("case_history_" ++ strftime_Y pads_Y (Date.year d) ++ mm ++ dd ++ ".parquet")%string
          /\ digits_value (strftime_Y pads_Y (Date.year d)) = Some (Date.year d)
          /\ (pads_Y = true -> String.length (strftime_Y pads_Y (Date.year d)) = 4)
          /\ read_file (fst (Loader._save_to_parquet pads_Y self cwd fs df d))
               (Loader.output_path pads_Y self d) = Some df)
  /\ Loader.output_filename false (Date.mkdate 5 1 2) = "case_history_50102.parquet".
Proof.
  split; [exact import_ParquetLoader_fails|].
  split; [|reflexivity].
  intros pads_Y self cwd fs df d Hd.
  destruct (valid_bounds d Hd) as (Hy & Hm & Hdd).
  exists (fmt_02d (Date.month d)), (fmt_02d (Date.day d)).
  rewrite !fmt_02d_strftime_2 by lia.
  split; [unfold Loader._get_hive_partition_path; rewrite !fmt_02d_strftime_2 by lia;
          reflexivity|].
  split; [reflexivity|]. split; [apply strftime_2_value; lia|].
  split; [reflexivity|]. split; [apply strftime_2_value; lia|].
  split; [unfold Loader.output_filename, Config.strftime_Ymd; rewrite !string_app_assoc;
          reflexivity|].
  split; [apply strftime_Y_value|].
  split; [intros ->; apply strftime_Y_length; change 10000 with (100 * 100); lia|].
  unfold Loader._save_to_parquet. cbv zeta.
  destruct (relative_to _ cwd); apply read_write.
Qed.

Lemma C2_witness :
  Date.valid feb11 = true
  /\ exists mm dd,
       Loader._get_hive_partition_path layout feb11 =
         (Loader.base_path layout ++ [("year=" ++ py_str (Date.year feb11))%string;
                                      ("month=" ++ mm)%string; ("day=" ++ dd)%string])%list
       /\ String.length mm = 2 /\ digits_value mm = Some (Date.month feb11)
       /\ String.length dd = 2 /\ digits_value dd = Some (Date.day feb11)
       /\ Loader.output_filename false feb11
          = ("case_history_" ++ strftime_Y false (Date.year feb11) ++ mm ++ dd ++ ".parquet")%string
       /\ digits_value (strftime_Y false (Date.year feb11)) = Some (Date.year feb11)
       /\ (false = true -> String.length (strftime_Y false (Date.year feb11)) = 4)
       /\ read_file (fst (Loader._save_to_parquet false layout cwd0 [] sample_df feb11))
            (Loader.output_path false layout feb11) = Some sample_df.
Proof.
  assert (Hv : Date.valid feb11 = true) by (vm_compute; reflexivity).
  split; [exact Hv|].
  exact (proj1 (proj2 C2_loader_layout) false layout cwd0 [] sample_df feb11 Hv).
Defined.

(** C5: on an adapter that can reach the engine, [create_table_from_df]
    with [if_exists='fail'] raises [ValueError] exactly when the catalog
    already has a table of that name, and when it raises the catalog is
    left as it was. *)
Theorem C5_fail_mode (self : DuckDBAdapter) (w : world) (df : DataFrame) (n : string)
    (H : healthy self w) :
  (snd (create_table_from_df self df n "fail" w) = Exc ValueError
   <-> lookup_table (tables w) n <> None)
  /\ (snd (create_table_from_df self df n "fail" w) = Exc ValueError ->
      tables (fst (create_table_from_df self df n "fail" w)) = tables w).
Proof.
  destruct (ensure_connected_ok self w H) as (h & w1 & He & Ha1 & Ho1 & Ht1).
  destruct (table_exists_ok self w1 n (healthy_connected self w1 h Ha1 Ho1))
    as (h2 & w2 & Hte & Ha2 & (c2 & Hc2 & Ho2) & Ht2).
  rewrite Ht1 in Hte. unfold create_table_from_df.
  rewrite (bind_ok _ _ _ _ _ He). cbv beta.
  rewrite (bind_ok _ _ _ _ _ Hte). cbv beta.
  destruct (lookup_table (tables w) n) as [old|] eqn:Hl.
  - change (true && String.eqb "fail" "fail") with true. cbv iota.
    rewrite (bind_exc _ _ w2 w2 ValueError eq_refl). simpl.
    split; [split; [discriminate | reflexivity]|]. intros _. rewrite Ht2. exact Ht1.
  - change (false && String.eqb "fail" "fail") with false.
    change (false && String.eqb "fail" "replace") with false. cbv iota.
    rewrite (bind_ok (ret tt) _ w2 w2 tt eq_refl). cbv beta.
    change (String.eqb "fail" "append" && false) with false. cbv iota.
    destruct (run_data w2 (SCreateTableAsDf n df) (tables w2) (files w2) (c_txn c2))
      as [[[ts' fs'] df']|] eqn:Hrd.
    + destruct (conn_execute_ok w2 h2 (SCreateTableAsDf n df) c2 ts' fs' (c_txn c2) df'
                  Ha2 Hc2 Ho2) as (w3 & Hx3 & _).
      { cbv beta iota zeta delta [run_stmt]. rewrite Hrd. reflexivity. }
      rewrite (bind_ok _ _ _ _ _ Hx3). simpl.
      split; [split; [discriminate | intros Hn; contradiction Hn; reflexivity]|].
      discriminate.
    + rewrite (bind_exc _ _ _ _ _ (conn_execute_fail w2 h2 (SCreateTableAsDf n df) c2 EngineError
                                     Ha2 Hc2 Ho2 ltac:(cbv beta iota zeta delta [run_stmt];
                                                       rewrite Hrd; reflexivity))).
      simpl.
      split; [split; [discriminate | intros Hn; contradiction Hn; reflexivity]|].
      discriminate.
Qed.

(** On [w_held] the table [cases] exists: [create_table_from_df] in
    ['fail'] mode raises [ValueError] and the catalog is unchanged. *)
Lemma C5_witness :
  healthy a0 w_held
  /\ snd (create_table_from_df a0 sample_df "cases" "fail" w_held) = Exc ValueError
  /\ (snd (create_table_from_df a0 sample_df "cases" "fail" w_held) = Exc ValueError
      <-> lookup_table (tables w_held) "cases" <> None)
  /\ (snd (create_table_from_df a0 sample_df "cases" "fail" w_held) = Exc ValueError ->
      tables (fst (create_table_from_df a0 sample_df "cases" "fail" w_held)) = tables w_held).
Proof.
  assert (Hh : healthy a0 w_held) by (exists (mkconn true None []); split; reflexivity).
  split; [exact Hh|]. split; [vm_compute; reflexivity|].
  apply C5_fail_mode. exact Hh.
Defined.

(** C3 (refuted): [read_cases_by_date_range] never returns rows.  Its
    [with self.db as conn] binds the DuckDB connection that [__enter__]
    returns, whose [fetch_df] takes no query, so the call raises; the
    adapter's [__exit__] then sends ROLLBACK outside any transaction, which
    raises in turn.  Whatever the reader, dates and state, the call ends in
    an exception; on three monthly extracts and the range 2025-01-01 to
    2025-02-11 it raises [TransactionException]. *)
Theorem C3_range_read_raises :
  (forall (self : Reader.DuckDBReader) (start_date end_date : Date.datetime) (w : world),
     exists e, snd (Reader.read_cases_by_date_range self start_date end_date w) = Exc e)
  /\ snd (Reader.read_cases_by_date_range r0 jan1 feb11 w3) = Exc TransactionException.
Proof.
  split; [intros self s e w; apply with_conn_fetch_df_raises|].
  vm_compute. reflexivity.
Qed.

(** C4 (refuted): [read_cases_by_date] never returns rows, for the same
    reason as C3; on extracts of January, February and March 2025,
    [read_cases_by_date(2025, month=2)] raises [TransactionException]. *)
Theorem C4_date_read_raises :
  (forall (self : Reader.DuckDBReader) (year : nat) (month day : option nat) (w : world),
     exists e, snd (Reader.read_cases_by_date self year month day w) = Exc e)
  /\ snd (Reader.read_cases_by_date r0 2025 (Some 2) None w3) = Exc TransactionException.
Proof.
  split; [intros self y m d w; apply with_conn_fetch_df_raises|].
  vm_compute. reflexivity.
Qed.

(** C8 (refuted): [query_cases(s)] never runs a query.  Whichever query it
    chooses from [s], it hands it to [fetch_df] of the DuckDB connection
    bound by [with self.db as conn], which takes no query; the call raises,
    and so does the ROLLBACK of [__exit__].  Whatever the reader, text and
    state, the call ends in an exception; [query_cases("SELECT 1")] on a
    fresh adapter raises [TransactionException]. *)
Theorem C8_query_cases_raises :
  (forall (self : Reader.DuckDBReader) (sql_filter : string) (w : world),
     exists e, snd (Reader.query_cases self sql_filter w) = Exc e)
  /\ snd (Reader.query_cases r0 "SELECT 1" w0) = Exc TransactionException.
Proof.
  split; [intros self s w; apply with_conn_fetch_df_raises|].
  vm_compute. reflexivity.
Qed.

(** C6 (refuted): when the body of a [with adapter:] block raises while the
    held connection is in auto-commit mode (no transaction open), the
    rollback of [__exit__] raises [TransactionException]; as [__exit__] has
    no [try/finally], [close] is never reached: the block ends with that
    exception and the adapter still holds its connection, open. *)
Theorem C6_exit_skips_close {A} (self : DuckDBAdapter) (body : pyobj -> M A)
    (w w1 w2 : world) (h : nat) (e : exn) (c : econn)
    (Henter : __enter__ self w = (w1, Ok (OConn h)))
    (Hbody : body (OConn h) w1 = (w2, Exc e))
    (Ha : a_conn w2 = Some h) (Hc : nth_error (conns w2) h = Some c)
    (Ho : c_open c = true) (Htx : c_txn c = None) :
  with_ self body w = (w2, Exc TransactionException) /\ a_conn w2 = Some h /\ conn_open w2 h.
Proof.
  assert (Hr : rollback self w2 = (w2, Exc TransactionException)).
  { unfold rollback. rewrite (bind_ok get _ w2 w2 w2 eq_refl). rewrite Ha.
    unfold bind, exec. rewrite Hc, Ho. cbv beta iota zeta delta [run_stmt].
    rewrite Htx. reflexivity. }
  split; [|split; [exact Ha | exists c; split; assumption]].
  unfold with_. rewrite (bind_ok _ _ _ _ _ Henter). cbv beta.
  rewrite (bind_ok (catch (body (OConn h))) _ w1 w2 (Exc e))
    by (unfold catch; rewrite Hbody; reflexivity).
  cbv beta iota.
  apply bind_exc. unfold __exit__. exact (bind_exc _ _ _ _ _ Hr).
Qed.

Lemma C6_witness :
  exists w', with_ a0 (fun _ => @raise DataFrame TypeError) w0 = (w', Exc TransactionException)
             /\ a_conn w' = Some 0 /\ conn_open w' 0.
Proof.
  eexists.
  apply (C6_exit_skips_close a0 (fun _ => @raise DataFrame TypeError) w0
           (fst (__enter__ a0 w0)) (fst (__enter__ a0 w0)) 0 TypeError
           (mkconn true None [SSet "memory_limit" "'4GB'"; SSet "threads" "4"]));
    vm_compute; reflexivity.
Defined.

(** C7: the adapter holds at most one engine connection.  [connect] with a
    handle held returns it and changes nothing (no new connection, no SET
    sent again); [close] without a handle changes nothing; every adapter
    operation keeps every open connection equal to the held one; so from
    such a state, along any sequence of adapter calls (exceptions caught by
    the caller), at most one connection is open. *)
Theorem C7_single_connection (self : DuckDBAdapter) :
  (forall w h, a_conn w = Some h -> connect self w = (w, Ok h))
  /\ (forall w, a_conn w = None -> close self w = (w, Ok tt))
  /\ (forall o w, inv w -> inv (fst (run_op self o w)))
  /\ (forall ops w, inv w -> List.length (filter c_open (conns (fst (run_ops self ops w)))) <= 1).
Proof.
  split; [intros w h Ha; unfold connect; rewrite (bind_ok get _ w w w eq_refl), Ha;
          reflexivity|].
  split; [intros w Ha; unfold close; rewrite (bind_ok get _ w w w eq_refl), Ha;
          reflexivity|].
  split; [intros o; apply preserves_run_op|].
  intros ops w Hw. apply inv_at_most_one_open. apply preserves_run_ops. exact Hw.
Qed.

Lemma C7_witness :
  let w1 := fst (connect a0 w0) in
  connect a0 w1 = (w1, Ok 0)
  /\ close a0 w0 = (w0, Ok tt)
  /\ inv (fst (run_op a0 OpConnect w0))
  /\ List.length (filter c_open (conns (fst (run_ops a0 [OpConnect; OpClose; OpConnect] w0)))) <= 1.
Proof.
  destruct (C7_single_connection a0) as (H1 & H2 & H3 & H4).
  split; [apply H1; vm_compute; reflexivity|].
  split; [apply H2; vm_compute; reflexivity|].
  split; [apply H3; apply inv_no_conns; vm_compute; reflexivity|].
  apply H4. apply inv_no_conns. vm_compute. reflexivity.
Defined.

(** C10: what [__enter__] returns is the engine connection [connect]
    opened, held by the adapter, not the adapter; calling [fetch_df(query)]
    on it resolves to the engine connection's [fetch_df], which takes no
    query, and raises [TypeError] without touching the state. *)
Theorem C10_enter_binds_engine_connection (self : DuckDBAdapter) (w w' : world) (o : pyobj)
    (st : stmt) (H : __enter__ self w = (w', Ok o)) :
  (exists h, o = OConn h /\ a_conn w' = Some h)
  /\ o <> OAdapter self
  /\ (forall w'', call_fetch_df o st w'' = (w'', Exc TypeError)).
Proof.
  destruct (enter_returns_conn self w w' o H) as (h & -> & Ha).
  split; [exists h; auto|]. split; [discriminate|]. reflexivity.
Qed.

Lemma C10_witness :
  (exists h, OConn 0 = OConn h /\ a_conn (fst (__enter__ a0 w0)) = Some h)
  /\ OConn 0 <> OAdapter a0
  /\ (forall w'', call_fetch_df (OConn 0) (SReadParquet Config.RAW_DATA_PATH []) w''
                  = (w'', Exc TypeError)).
Proof.
  apply (C10_enter_binds_engine_connection a0 w0 (fst (__enter__ a0 w0)) (OConn 0)).
  vm_compute. reflexivity.
Defined.

(** C9: [get_database(s, db_path, **kwargs)] raises [ValueError] exactly
    when [s] is not [duckdb] up to case (Python's [s.lower() == "duckdb"]
    holds exactly when [s] case-folds to [duckdb]); for [duckdb] it builds the
    adapter on [db_path] with the [memory_limit] and [threads] passed,
    and with [4GB] and [4] when they are not passed. *)
Theorem C9_factory (db_type db_path : string) (kwargs : list (string * pyval)) :
  (Factory.get_database db_type db_path kwargs = Exc ValueError
   <-> ci_equal db_type "duckdb" = false)
  /\ (ci_equal db_type "duckdb" = true ->
      Factory.get_database db_type db_path kwargs =
        Ok (mkadapter (PyPath db_path)
              (Factory.kwargs_get kwargs "memory_limit" (PStr "4GB"))
              (Factory.kwargs_get kwargs "threads" (PInt 4))))
  /\ (ci_equal db_type "duckdb" = true ->
      (forall v, ~ In ("memory_limit", v) kwargs) -> (forall v, ~ In ("threads", v) kwargs) ->
      Factory.get_database db_type db_path kwargs =
        Ok (mkadapter (PyPath db_path) (PStr "4GB") (PInt 4))).
Proof.
  unfold Factory.get_database.
  rewrite lower_eq_duckdb.
  destruct (ci_equal db_type "duckdb").
  - split; [split; discriminate|]. split; [reflexivity|].
    intros _ Hm Ht. rewrite !FactoryFacts.kwargs_get_absent by assumption. reflexivity.
  - split; [split; reflexivity|]. split; discriminate.
Qed.

(** ["DUC\u212aDB"] case-folds to [duckdb] and gets the default adapter;
    [mysql] is refused. *)
Lemma C9_witness :
  ci_equal duc_kelvin_db "duckdb" = true
  /\ Factory.get_database duc_kelvin_db "dwh.duckdb" []
     = Ok (mkadapter (PyPath "dwh.duckdb") (PStr "4GB") (PInt 4))
  /\ ci_equal "mysql" "duckdb" = false
  /\ Factory.get_database "mysql" "dwh.duckdb" [] = Exc ValueError.
Proof.
  assert (Hk : ci_equal duc_kelvin_db "duckdb" = true) by (vm_compute; reflexivity).
  assert (Hm : ci_equal "mysql" "duckdb" = false) by (vm_compute; reflexivity).
  split; [exact Hk|]. split.
  - apply (proj2 (proj2 (C9_factory duc_kelvin_db "dwh.duckdb" []))) ;
      [exact Hk | intros v [] | intros v []].
  - split; [exact Hm|]. apply (proj1 (C9_factory "mysql" "dwh.duckdb" [])). exact Hm.
Defined.

End Claims.

(** ** Further properties of the code *)

Module Extras.
Import Engine Adapter Samples Predicates FmtFacts AdapterFacts LoaderFacts HeldFacts.

(** X6: a one-day range looks at one path, the day's legacy raw path
    (whatever the platform's [%Y]), and returns it if it exists; the loop's
    [current += timedelta(days=1)] raises [OverflowError] on 9999-12-31. *)
Theorem discovery_single_day (pads_Y : bool) (fs : fsys) (d : Date.datetime) :
  Config.list_raw_files_in_range pads_Y fs d d =
  match Date.next_day d with
  | None => Exc OverflowError
  | Some _ => Ok (if exists_ fs (Config.get_raw_file_path pads_Y d)
                  then [Config.get_raw_file_path pads_Y d] else [])
  end.
Proof. apply discovery_one_day. Qed.

(** X7: a range whose start is after its end finds no file. *)
Theorem discovery_reversed_range (pads_Y : bool) (fs : fsys) (s e : Date.datetime)
    (H : Date.le s e = false) :
  Config.list_raw_files_in_range pads_Y fs s e = Ok [].
Proof. exact (discovery_empty pads_Y fs s e H). Qed.

Lemma discovery_reversed_range_witness :
  Date.le dec31 jan1 = false /\ Config.list_raw_files_in_range true [] dec31 jan1 = Ok [].
Proof. split; [reflexivity|]. apply discovery_reversed_range. reflexivity. Defined.

(** X11: [connect] on an adapter holding no connection opens one new
    engine connection, makes it the adapter's, and configures it with
    [SET memory_limit='...'] then [SET threads=...]; the catalog and the
    other connections are untouched. *)
Theorem connect_opens_and_configures (self : DuckDBAdapter) (w : world)
    (Ha : a_conn w = None) (Ho : can_open w = true)
    (Hm : set_ok w "memory_limit" ("'" ++ pyval_str (memory_limit self) ++ "'") = true)
    (Ht : set_ok w "threads" (pyval_str (threads self)) = true) :
  connect self w =
  (mkworld (Some (List.length (conns w)))
     (conns w ++ [mkconn true None
                   [SSet "memory_limit" ("'" ++ pyval_str (memory_limit self) ++ "'");
                    SSet "threads" (pyval_str (threads self))]])%list
     (tables w) (files w) (can_open w) (set_ok w) (raw_sql w) (run_data w),
   Ok (List.length (conns w))).
Proof. exact (connect_fresh self w Ha Ho Hm Ht). Qed.

Lemma connect_opens_and_configures_witness :
  a_conn w0 = None /\ can_open w0 = true
  /\ set_ok w0 "memory_limit" ("'" ++ pyval_str (memory_limit a0) ++ "'") = true
  /\ set_ok w0 "threads" (pyval_str (threads a0)) = true
  /\ connect a0 w0 =
     (mkworld (Some 0) [mkconn true None [SSet "memory_limit" "'4GB'"; SSet "threads" "4"]]
        [] (files w0) true (set_ok w0) (raw_sql w0) (run_data w0), Ok 0).
Proof.
  split; [reflexivity|]. split; [reflexivity|]. split; [reflexivity|]. split; [reflexivity|].
  exact (connect_opens_and_configures a0 w0 eq_refl eq_refl eq_refl eq_refl).
Defined.

(** X12: when the engine refuses the memory setting, [connect] raises but
    the adapter keeps the new, unconfigured connection; the next [connect]
    returns that connection without configuring it. *)
Theorem connect_refused_setting_kept (self : DuckDBAdapter) (w : world)
    (Ha : a_conn w = None) (Ho : can_open w = true)
    (Hm : set_ok w "memory_limit" ("'" ++ pyval_str (memory_limit self) ++ "'") = false) :
  let w' := mkworld (Some (List.length (conns w))) (conns w ++ [mkconn true None []])%list
              (tables w) (files w) (can_open w) (set_ok w) (raw_sql w) (run_data w) in
  connect self w = (w', Exc EngineError)
  /\ connect self w' = (w', Ok (List.length (conns w))).
Proof.
  cbv zeta. split; [exact (connect_set_refused self w Ha Ho Hm)|].
  apply connect_held. reflexivity.
Qed.

Lemma connect_refused_setting_kept_witness :
  let w := mkworld None [] [] [] true (fun k _ => negb (String.eqb k "memory_limit"))
             (fun _ => None) no_data in
  a_conn w = None /\ can_open w = true
  /\ set_ok w "memory_limit" ("'" ++ pyval_str (memory_limit a0) ++ "'") = false
  /\ connect a0 w = (mkworld (Some 0) [mkconn true None []] [] [] true (set_ok w)
                       (raw_sql w) (run_data w), Exc EngineError).
Proof.
  cbv zeta. split; [reflexivity|]. split; [reflexivity|]. split; [reflexivity|].
  exact (proj1 (connect_refused_setting_kept a0
           (mkworld None [] [] [] true (fun k _ => negb (String.eqb k "memory_limit"))
              (fun _ => None) no_data) eq_refl eq_refl eq_refl)).
Defined.

(** X13: [close] marks the held connection closed (its log unchanged),
    drops the adapter's handle, restores the catalog saved by an open
    transaction, leaves the other connections as they were, and a second
    [close] does nothing. *)
Theorem close_releases (self : DuckDBAdapter) (w : world) (h : nat)
    (tx : option (list (string * DataFrame))) (H : held w h tx) :
  exists c w', nth_error (conns w) h = Some c
    /\ close self w = (w', Ok tt) /\ a_conn w' = None
    /\ nth_error (conns w') h = Some (mkconn false None (c_log c))
    /\ (forall i, i <> h -> nth_error (conns w') i = nth_error (conns w) i)
    /\ tables w' = match tx with Some saved => saved | None => tables w end
    /\ close self w' = (w', Ok tt).
Proof.
  destruct (close_held self w h tx H) as (c & w' & Hc & _ & Hcl & Ha & Hn & Ho & Ht & _).
  exists c, w'. repeat split; auto. apply close_none. exact Ha.
Qed.

Lemma w_held_held : held w_held 0 None.
Proof. split; [reflexivity|]. eexists; split; [reflexivity|]. split; reflexivity. Qed.

Lemma close_releases_witness :
  held w_held 0 None
  /\ exists c w', nth_error (conns w_held) 0 = Some c
    /\ close a0 w_held = (w', Ok tt) /\ a_conn w' = None
    /\ nth_error (conns w') 0 = Some (mkconn false None (c_log c))
    /\ (forall i, i <> 0 -> nth_error (conns w') i = nth_error (conns w_held) i)
    /\ tables w' = tables w_held
    /\ close a0 w' = (w', Ok tt).
Proof. split; [exact w_held_held|]. exact (close_releases a0 w_held 0 None w_held_held). Defined.

Lemma lookup_existsb ts n :
  match lookup_table ts n with Some _ => true | None => false end
  = existsb (fun e => String.eqb (fst e) n) ts.
Proof.
  unfold lookup_table. induction ts as [|e ts IH]; simpl; [reflexivity|].
  unfold table_names_eq at 1. destruct (String.eqb (fst e) n); [reflexivity|exact IH].
Qed.

(** X15: [table_exists] is an exact, case-sensitive name lookup in the
    catalog, and reads it without changing it. *)
Theorem table_exists_lookup (self : DuckDBAdapter) (w : world) (h : nat)
    (tx : option (list (string * DataFrame))) (n : string) (H : held w h tx) :
  exists w', table_exists self n w = (w', Ok (existsb (fun e => String.eqb (fst e) n) (tables w)))
             /\ held w' h tx /\ tables w' = tables w.
Proof.
  destruct (table_exists_held self w h tx n H) as (w' & Ht & Hh & Htab & _).
  exists w'. rewrite Ht, lookup_existsb. auto.
Qed.

Lemma table_exists_lookup_witness :
  held w_held 0 None
  /\ exists w', table_exists a0 "Cases" w_held = (w', Ok false) /\ held w' 0 None
                /\ tables w' = tables w_held.
Proof. split; [exact w_held_held|]. exact (table_exists_lookup a0 w_held 0 None "Cases" w_held_held). Defined.

(** X20: in DuckDB's default auto-commit mode [commit] does nothing, while
    [rollback] raises [TransactionException] and changes nothing. *)
Theorem autocommit_commit_rollback (self : DuckDBAdapter) (w : world) (h : nat)
    (H : held w h None) :
  commit self w = (w, Ok tt) /\ rollback self w = (w, Exc TransactionException).
Proof. split; [exact (commit_autocommit self w h H)|exact (rollback_autocommit self w h H)]. Qed.

Lemma autocommit_commit_rollback_witness :
  held w_held 0 None
  /\ commit a0 w_held = (w_held, Ok tt) /\ rollback a0 w_held = (w_held, Exc TransactionException).
Proof. split; [exact w_held_held|]. exact (autocommit_commit_rollback a0 w_held 0 w_held_held). Defined.

(** X25: a [with adapter:] block whose body returns normally, entered with
    no connection held, returns the body's value and leaves the adapter
    with no handle and the connection it opened closed: no ROLLBACK is sent
    on this path. *)
Theorem with_normal_exit_closes {A : Type} (self : DuckDBAdapter) (body : pyobj -> M A) (w : world)
    (Ha : a_conn w = None) (Ho : can_open w = true)
    (Hm : set_ok w "memory_limit" ("'" ++ pyval_str (memory_limit self) ++ "'") = true)
    (Ht : set_ok w "threads" (pyval_str (threads self)) = true)
    (Hbody : forall w1, held w1 (List.length (conns w)) None ->
             exists w2 a tx, body (OConn (List.length (conns w))) w1 = (w2, Ok a)
                             /\ held w2 (List.length (conns w)) tx) :
  exists w' a, with_ self body w = (w', Ok a) /\ a_conn w' = None
    /\ exists c, nth_error (conns w') (List.length (conns w)) = Some c /\ c_open c = false.
Proof.
  destruct (connect_fresh_held self w Ha Ho Hm Ht) as (w1 & Hc & Hh1 & _).
  destruct (Hbody w1 Hh1) as (w2 & a & tx & Hb & Hh2).
  destruct (close_held self w2 _ tx Hh2) as (c & w3 & _ & _ & Hcl & Ha3 & Hn3 & _).
  exists w3, a. unfold with_, __enter__.
  rewrite (bind_ok _ _ _ _ _ (bind_ok _ _ _ _ _ Hc)).
  unfold bind at 1, catch. rewrite Hb. unfold __exit__.
  rewrite (bind_ok _ _ _ _ _ (eq_trans (bind_ok _ _ _ _ _ (eq_refl : ret tt w2 = (w2, Ok tt))) Hcl)).
  split; [reflexivity|]. split; [exact Ha3|]. eexists; split; [exact Hn3|reflexivity].
Qed.

Lemma with_normal_exit_closes_witness :
  a_conn w0 = None /\ can_open w0 = true
  /\ exists w' a, with_ a0 (fun _ => ret true) w0 = (w', Ok a) /\ a_conn w' = None
       /\ exists c, nth_error (conns w') 0 = Some c /\ c_open c = false.
Proof.
  split; [reflexivity|]. split; [reflexivity|].
  apply (with_normal_exit_closes a0 (fun _ => ret true) w0 eq_refl eq_refl eq_refl eq_refl).
  intros w1 H. exists w1, true, None. split; [reflexivity|exact H].
Defined.

(** X26: [read_all_cases], [get_partition_stats] and [query_cases], called
    on a Reader whose adapter holds no connection, raise
    [TransactionException] (the rollback of [__exit__] after the body's
    [TypeError]) and leave the adapter holding the open connection. *)
Theorem reader_methods_raise (r : Reader.DuckDBReader) (sql_filter : string) (w : world)
    (Ha : a_conn w = None) (Ho : can_open w = true)
    (Hm : set_ok w "memory_limit" ("'" ++ pyval_str (memory_limit (Reader.db r)) ++ "'") = true)
    (Ht : set_ok w "threads" (pyval_str (threads (Reader.db r))) = true) :
  (exists w', Reader.read_all_cases r w = (w', Exc TransactionException)
              /\ held w' (List.length (conns w)) None)
  /\ (exists w', Reader.get_partition_stats r w = (w', Exc TransactionException)
                 /\ held w' (List.length (conns w)) None)
  /\ (exists w', Reader.query_cases r sql_filter w = (w', Exc TransactionException)
                 /\ held w' (List.length (conns w)) None).
Proof.
  split; [|split];
    [ destruct (with_conn_fetch_df_fresh (Reader.db r) (SReadParquet (Reader.raw_path r) []) w
                  Ha Ho Hm Ht) as (w' & Hx & Hh & _)
    | destruct (with_conn_fetch_df_fresh (Reader.db r)
                  (SRaw (Reader.partition_stats_sql (Reader.raw_path r))) w Ha Ho Hm Ht)
        as (w' & Hx & Hh & _)
    | destruct (with_conn_fetch_df_fresh (Reader.db r)
                  (Reader.query_cases_query (Reader.raw_path r) sql_filter) w Ha Ho Hm Ht)
        as (w' & Hx & Hh & _) ];
    exists w'; split; [exact Hx | exact Hh| exact Hx | exact Hh | exact Hx | exact Hh].
Qed.

Lemma reader_methods_raise_witness :
  a_conn w0 = None /\ can_open w0 = true
  /\ (exists w', Reader.read_all_cases r0 w0 = (w', Exc TransactionException) /\ held w' 0 None)
  /\ (exists w', Reader.get_partition_stats r0 w0 = (w', Exc TransactionException) /\ held w' 0 None)
  /\ (exists w', Reader.query_cases r0 "year = 2025" w0 = (w', Exc TransactionException)
                 /\ held w' 0 None).
Proof.
  split; [reflexivity|]. split; [reflexivity|].
  exact (reader_methods_raise r0 "year = 2025" w0 eq_refl eq_refl eq_refl eq_refl).
Defined.

(** X27: [tests/test_connection.py] runs to completion on an engine that
    answers its three queries: it reports whether [nonexistent_table]
    exists, and the [with] block closes the connection it opened. *)
Theorem test_connection_completes (w : world) c1 cs1 rs1 c2 cs2 rs2 (df3 : DataFrame)
    (Ha : a_conn w = None) (Ho : can_open w = true)
    (Hm : set_ok w "memory_limit" "'4GB'" = true) (Ht : set_ok w "threads" "4" = true)
    (Hq1 : raw_sql w "SELECT 'Connection successful!' as message" = Some ((c1 :: cs1) :: rs1))
    (Hq2 : raw_sql w "SELECT version()" = Some ((c2 :: cs2) :: rs2))
    (Hq3 : raw_sql w "SELECT 1 as id, 'test' as name" = Some df3) :
  exists w', Tests.test_connection w
             = (w', Ok (existsb (fun e => String.eqb (fst e) "nonexistent_table") (tables w)))
             /\ a_conn w' = None /\ tables w' = tables w
             /\ exists c, nth_error (conns w') (List.length (conns w)) = Some c /\ c_open c = false.
Proof.
  destruct (test_connection_runs w c1 cs1 rs1 c2 cs2 rs2 df3 Ha Ho Hm Ht Hq1 Hq2 Hq3)
    as (w' & Hx & R). exists w'. rewrite Hx, lookup_existsb. auto.
Qed.

Lemma test_connection_completes_witness :
  let w := mkworld None [] [("cases", sample_df)] [] true (fun _ _ => true)
             (fun _ => Some sample_df) no_data in
  a_conn w = None /\ can_open w = true
  /\ exists w', Tests.test_connection w = (w', Ok false) /\ a_conn w' = None
                /\ tables w' = tables w
                /\ exists c, nth_error (conns w') 0 = Some c /\ c_open c = false.
Proof.
  cbv zeta. split; [reflexivity|]. split; [reflexivity|].
  exact (test_connection_completes
           (mkworld None [] [("cases", sample_df)] [] true (fun _ _ => true)
              (fun _ => Some sample_df) no_data)
           _ _ [] _ _ [] sample_df eq_refl eq_refl eq_refl eq_refl eq_refl eq_refl eq_refl).
Defined.


End Extras.
